(** * Task-graph scheduler of [src/agent/graph.py]

    A shallow embedding of the planner/executor agent: the [Task] and
    [TaskTree] models, [TaskTree.get_ready_tasks],
    [TaskTree.update_task_status], [BaseExecutor.execute],
    [ExecutorManager], [TaskPlanner] (plan parsing and the default tree) and
    the drain loop of [execution_node].

    Conventions of the embedding.
    - A Python [str] is a [string] holding its UTF-8 bytes.  Searching for an
      ASCII pattern and slicing at the position found cut the same substring
      whether positions count bytes or code points.
    - A method that mutates [self] returns the new value of [self].
    - Code that can raise returns a [Res]; [try/except Exception] is a match
      on it.
    - The language model behind the planner and the executors, the random
      source of [uuid.uuid4] and the library parser [ET.fromstring] are
      variables of the section: every theorem holds whatever they do.
    - Logging and console output are not modelled. *)

From Stdlib Require Import List String Ascii Bool Arith ZArith Lia.
From Stdlib Require Import DecimalString.
Import ListNotations.
Open Scope string_scope.
Set Warnings "-register-all".

(** ** Python values and results *)

(** A value stored in [Task.parameters] ([Dict[str, Any]]): the parser stores
    [param.text] (a [str] or [None]), the default tree also stores an [int]. *)
Inductive PyVal : Type :=
| VNone
| VStr (s : string)
| VInt (z : Z).

(** An exception, known by the text [str(e)] gives. *)
Inductive Exn : Type :=
| Exception (msg : string).

Definition str (e : Exn) : string :=
  match e with Exception msg => msg end.

(** The outcome of code that may raise. *)
Inductive Res (A : Type) : Type :=
| Ok (a : A)
| Raise (e : Exn).
Arguments Ok {A} a.
Arguments Raise {A} e.

(** Truth value of an [Optional[str]]: [None] and [''] are falsy. *)
Definition truthy (r : option string) : bool :=
  match r with
  | Some s => negb (s =? "")
  | None => false
  end.

(** [x or d] for an [Optional[str]] [x]. *)
Definition text_or (x : option string) (d : string) : string :=
  match x with
  | Some s => if s =? "" then d else s
  | None => d
  end.

(** ** Data model (graph.py, lines 78-90) *)

Record Task : Type := mkTask {
  id : string;
  name : string;
  description : string;
  executor_type : string;
  dependencies : list string;
  parameters : list (string * PyVal);
  status : string;
  result : option string
}.

(** [Task(id=..., name=..., description=..., executor_type=...,
    dependencies=..., parameters=...)]: [status] and [result] take their
    defaults. *)
Definition new_Task (i n d e : string) (deps : list string)
    (params : list (string * PyVal)) : Task :=
  mkTask i n d e deps params "pending" None.

(** A [TaskTree] owns the list [tasks] of task objects.  Both places that
    build a tree put the very object bound to [root_task] first in [tasks],
    and pydantic keeps model instances as they are, so [root_task] is a
    reference into [tasks]: it is modelled as a position in the list, and an
    update of that task is seen through [root_task] as well. *)
Record TaskTree : Type := mkTaskTree {
  root_task : nat;
  tasks : list Task
}.

(** ** TaskTree.get_ready_tasks (lines 92-104) *)

(** [any(t.id == dep_id and t.status == "completed" for t in self.tasks)] *)
Definition dep_completed (ts : list Task) (dep_id : string) : bool :=
  existsb (fun t => (id t =? dep_id) && (status t =? "completed")) ts.

(** [all(... for dep_id in task.dependencies) if task.dependencies else True] *)
Definition all_deps_completed (ts : list Task) (task : Task) : bool :=
  match dependencies task with
  | [] => true
  | _ :: _ => forallb (dep_completed ts) (dependencies task)
  end.

(** The [for task in self.tasks] loop, appending the ready tasks in order. *)
Fixpoint ready_loop (all rest : list Task) : list Task :=
  match rest with
  | [] => []
  | task :: rest' =>
      if status task =? "pending" then
        if all_deps_completed all task then task :: ready_loop all rest'
        else ready_loop all rest'
      else ready_loop all rest'
  end.

Definition get_ready_tasks (self : TaskTree) : list Task :=
  ready_loop (tasks self) (tasks self).

(** ** TaskTree.update_task_status (lines 106-114) *)

(** The body of the [if task.id == task_id] branch: the status is assigned,
    the result only when the argument is truthy. *)
Definition assign_status (task : Task) (new_status : string)
    (new_result : option string) : Task :=
  mkTask (id task) (name task) (description task) (executor_type task)
         (dependencies task) (parameters task) new_status
         (if truthy new_result then new_result else result task).

(** The [for task in self.tasks] loop with its [break] at the first match. *)
Fixpoint update_loop (ts : list Task) (task_id new_status : string)
    (new_result : option string) : list Task :=
  match ts with
  | [] => []
  | task :: rest =>
      if id task =? task_id
      then assign_status task new_status new_result :: rest
      else task :: update_loop rest task_id new_status new_result
  end.

Definition update_task_status (self : TaskTree) (task_id new_status : string)
    (new_result : option string) : TaskTree :=
  mkTaskTree (root_task self)
             (update_loop (tasks self) task_id new_status new_result).

(** ** Python string operations used by the parser *)

Fixpoint drop (n : nat) (s : string) : string :=
  match n, s with
  | S n', String _ s' => drop n' s'
  | _, _ => s
  end.

Fixpoint take (n : nat) (s : string) : string :=
  match n, s with
  | S n', String c s' => String c (take n' s')
  | _, _ => ""
  end.

Fixpoint string_rev (s : string) : string :=
  match s with
  | EmptyString => ""
  | String c s' => string_rev s' ++ String c ""
  end.

(** [s.startswith(p)] *)
Definition startswith (s p : string) : bool := prefix p s.

(** [s.find(pat)], counted from position [i] of the whole string: the first
    position where [pat] occurs, [-1] when there is none. *)
Fixpoint find_from (pat s : string) (i : Z) : Z :=
  if prefix pat s then i
  else match s with
       | EmptyString => (-1)%Z
       | String _ s' => find_from pat s' (i + 1)%Z
       end.

Definition find (s pat : string) : Z := find_from pat s 0%Z.

(** [pat in s] *)
Definition contains (s pat : string) : bool := negb (find s pat =? -1)%Z.

(** A slice bound, clipped to the string as Python clips it. *)
Definition slice_bound (len i : Z) : nat :=
  Z.to_nat (if (i <? 0)%Z then Z.max 0 (len + i) else Z.min i len).

(** [s[i:]] and [s[:j]] *)
Definition slice_from (s : string) (i : Z) : string :=
  drop (slice_bound (Z.of_nat (length s)) i) s.

Definition slice_to (s : string) (j : Z) : string :=
  take (slice_bound (Z.of_nat (length s)) j) s.

(** [s.split(',')] *)
Fixpoint split_comma (s : string) : list string :=
  match s with
  | EmptyString => [""]
  | String c s' =>
      if Ascii.eqb c ","%char then "" :: split_comma s'
      else match split_comma s' with
           | piece :: pieces => String c piece :: pieces
           | [] => [String c ""]
           end
  end.

Definition bytes (l : list nat) : string :=
  fold_right (fun n s => String (ascii_of_nat n) s) "" l.

(** The UTF-8 encodings of the characters [str.isspace] accepts: U+0009 to
    U+000D, U+001C to U+0020, U+0085, U+00A0, U+1680, U+2000 to U+200A,
    U+2028, U+2029, U+202F, U+205F and U+3000. *)
Definition whitespace : list string :=
  map bytes
    [ [9]; [10]; [11]; [12]; [13]; [28]; [29]; [30]; [31]; [32];
      [194; 133]; [194; 160]; [225; 154; 128];
      [226; 128; 128]; [226; 128; 129]; [226; 128; 130]; [226; 128; 131];
      [226; 128; 132]; [226; 128; 133]; [226; 128; 134]; [226; 128; 135];
      [226; 128; 136]; [226; 128; 137]; [226; 128; 138];
      [226; 128; 168]; [226; 128; 169]; [226; 128; 175];
      [226; 129; 159]; [227; 128; 128] ].

(** One leading occurrence of a pattern of [pats] removed, if there is one. *)
Fixpoint drop_one (pats : list string) (s : string) : option string :=
  match pats with
  | [] => None
  | p :: pats' =>
      if prefix p s then Some (drop (length p) s) else drop_one pats' s
  end.

Fixpoint drop_all (n : nat) (pats : list string) (s : string) : string :=
  match n with
  | 0 => s
  | S n' =>
      match drop_one pats s with
      | Some s' => drop_all n' pats s'
      | None => s
      end
  end.

Definition lstrip (s : string) : string :=
  drop_all (length s) whitespace s.

Definition rstrip (s : string) : string :=
  string_rev (drop_all (length s) (map string_rev whitespace) (string_rev s)).

(** [s.strip()] *)
Definition strip (s : string) : string := rstrip (lstrip s).

(** ** Element trees ([xml.etree.ElementTree]) *)

(** An element as the parser reads it: its tag, its text and its children in
    document order. *)
Inductive Element : Type :=
| mkElement (tag : string) (text : option string) (children : list Element).

Definition tag (e : Element) : string :=
  match e with mkElement t _ _ => t end.

Definition text (e : Element) : option string :=
  match e with mkElement _ x _ => x end.

Definition children (e : Element) : list Element :=
  match e with mkElement _ _ cs => cs end.

(** [e.find(t)]: the first child with tag [t], or [None]. *)
Definition elem_find (e : Element) (t : string) : option Element :=
  List.find (fun c => tag c =? t) (children e).

(** [e.findall(t)]: the children with tag [t]. *)
Definition findall (e : Element) (t : string) : list Element :=
  filter (fun c => tag c =? t) (children e).

(** [d[k] = v] on a dict kept in insertion order. *)
Fixpoint dict_set (d : list (string * PyVal)) (k : string) (v : PyVal)
    : list (string * PyVal) :=
  match d with
  | [] => [(k, v)]
  | (k', v') :: d' =>
      if k' =? k then (k', v) :: d' else (k', v') :: dict_set d' k v
  end.

Definition text_value (x : option string) : PyVal :=
  match x with
  | Some s => VStr s
  | None => VNone
  end.

(** ** ExecutorManager (lines 312-328) *)

(** The keys of [ExecutorManager.executors]; an executor is known by its key. *)
Definition executors : list string :=
  [ "data_collector"; "technical_analyst"; "news_analyst"; "risk_assessor";
    "report_generator" ].

(** [self.executors.get(executor_type, self.executors["data_collector"])] *)
Definition get_executor (executor_type : string) : string :=
  if existsb (String.eqb executor_type) executors then executor_type
  else "data_collector".

(** The [context] dict [execution_node] builds for each task. *)
Record Context : Type := mkContext {
  completed_tasks : list Task;
  user_query : string
}.

(** ** Sample plans and environments

    Concrete inputs for the examples at the end of the file.  A sample
    environment has a call counter for its world. *)

(** A planner whose generator always answers [answer]. *)
Definition sample_chain (answer : Res string) (w : nat) (query : string)
    : nat * Res string :=
  (S w, answer).

(** Executors whose agent always answers [answer]. *)
Definition sample_agent (answer : Res string) (w : nat) (executor : string)
    (task : Task) : nat * Res string :=
  (S w, answer).

(** A random source numbering the identifiers it hands out. *)
Definition sample_uuid4 (w : nat) : nat * string :=
  (S w, "3f2b8c1e-0000-4000-8000-00000000000" ++ String (ascii_of_nat (48 + w mod 10)) "").

(** [ET.fromstring] restricted to one document: [root] is the tree of [doc],
    any other text is refused. *)
Definition sample_fromstring (doc : string) (root : Element) (s : string)
    : Res Element :=
  if s =? doc then Ok root else Raise (Exception "syntax error: line 1, column 0").

(** The name, description, executor type and parameters of a subtask of a
    plan, as texts of its elements. *)
Record Subtask : Type := mkSubtask {
  sub_name : option string;
  sub_description : option string;
  sub_executor : option string;
  sub_parameters : list Element
}.

(** The [<task>] element of a subtask that supplies every field. *)
Definition task_element (i : string) (deps : option string) (f : Subtask)
    : Element :=
  mkElement "task" None
    [ mkElement "id" (Some i) [];
      mkElement "name" (sub_name f) [];
      mkElement "description" (sub_description f) [];
      mkElement "executor_type" (sub_executor f) [];
      mkElement "dependencies" deps [];
      mkElement "parameters" None (sub_parameters f) ].

(** The tree of a plan with subtasks A, B depending on A, and C depending on
    B; [root_fields] are the children of its [<root_task>]. *)
Definition chain_plan (root_fields : list Element) (fa fb fc : Subtask)
    : Element :=
  mkElement "task_tree" None
    [ mkElement "root_task" None root_fields;
      mkElement "tasks" None
        [ task_element "A" None fa;
          task_element "B" (Some "A") fb;
          task_element "C" (Some "B") fc ] ].

Definition sample_subtask (n e : string) : Subtask :=
  mkSubtask (Some n) (Some "step") (Some e) [].

Definition sample_chain_plan : Element :=
  chain_plan [mkElement "id" (Some "root") []]
    (sample_subtask "a" "data_collector")
    (sample_subtask "b" "technical_analyst")
    (sample_subtask "c" "report_generator").

Definition sample_chain_text : string :=
  "<task_tree><root_task><id>root</id></root_task><tasks>"
  ++ "<task><id>A</id><name>a</name><description>step</description>"
  ++ "<executor_type>data_collector</executor_type>"
  ++ "<dependencies></dependencies><parameters></parameters></task>"
  ++ "<task><id>B</id><name>b</name><description>step</description>"
  ++ "<executor_type>technical_analyst</executor_type>"
  ++ "<dependencies>A</dependencies><parameters></parameters></task>"
  ++ "<task><id>C</id><name>c</name><description>step</description>"
  ++ "<executor_type>report_generator</executor_type>"
  ++ "<dependencies>B</dependencies><parameters></parameters></task>"
  ++ "</tasks></task_tree>".

(** Lines of text joined by newlines. *)
Definition sample_nl : string := String (ascii_of_nat 10) "".

Fixpoint sample_lines (l : list string) : string :=
  match l with
  | [] => ""
  | [line] => line
  | line :: rest => line ++ sample_nl ++ sample_lines rest
  end.

(** The plan A, B, C laid out one tag to a line, as the planner's prompt
    shows it: the fields of B in another order, its dependency padded, a
    trailing comma in the dependencies of C. *)
Definition sample_layout_text : string :=
  sample_lines
    [ "<task_tree>";
      "<root_task>"; "<id>root</id>"; "</root_task>";
      "<tasks>";
      "<task>"; "<id>A</id>"; "<name>prices</name>";
      "<description>collect prices</description>";
      "<executor_type>data_collector</executor_type>";
      "<dependencies></dependencies>";
      "<parameters>"; "<symbol>0700.HK</symbol>"; "</parameters>";
      "</task>";
      "<task>"; "<dependencies> A </dependencies>";
      "<executor_type>technical_analyst</executor_type>";
      "<name>chart</name>"; "<id>B</id>";
      "<description>read the chart</description>";
      "</task>";
      "<task>"; "<id>C</id>"; "<name>report</name>";
      "<description>write the report</description>";
      "<executor_type>report_generator</executor_type>";
      "<dependencies>B,</dependencies>";
      "<parameters></parameters>";
      "</task>";
      "</tasks>";
      "</task_tree>" ].

Definition sample_layout_a : Element :=
  mkElement "task" (Some sample_nl)
    [ mkElement "id" (Some "A") [];
      mkElement "name" (Some "prices") [];
      mkElement "description" (Some "collect prices") [];
      mkElement "executor_type" (Some "data_collector") [];
      mkElement "dependencies" None [];
      mkElement "parameters" (Some sample_nl)
        [mkElement "symbol" (Some "0700.HK") []] ].

Definition sample_layout_b : Element :=
  mkElement "task" (Some sample_nl)
    [ mkElement "dependencies" (Some " A ") [];
      mkElement "executor_type" (Some "technical_analyst") [];
      mkElement "name" (Some "chart") [];
      mkElement "id" (Some "B") [];
      mkElement "description" (Some "read the chart") [] ].

Definition sample_layout_c : Element :=
  mkElement "task" (Some sample_nl)
    [ mkElement "id" (Some "C") [];
      mkElement "name" (Some "report") [];
      mkElement "description" (Some "write the report") [];
      mkElement "executor_type" (Some "report_generator") [];
      mkElement "dependencies" (Some "B,") [];
      mkElement "parameters" None [] ].

Definition sample_layout_tasks : Element :=
  mkElement "tasks" (Some sample_nl)
    [sample_layout_a; sample_layout_b; sample_layout_c].

Definition sample_layout_plan : Element :=
  mkElement "task_tree" (Some sample_nl)
    [ mkElement "root_task" (Some sample_nl)
        [mkElement "id" (Some "root") []];
      sample_layout_tasks ].

(** A plan whose only subtask has no [<name>] element. *)
Definition sample_nameless_plan : Element :=
  mkElement "task_tree" None
    [ mkElement "tasks" None
        [ mkElement "task" None
            [ mkElement "id" (Some "task_1") [];
              mkElement "description" (Some "collect prices") [];
              mkElement "executor_type" (Some "data_collector") [] ] ] ].

Definition sample_nameless_text : string :=
  "<task_tree><tasks><task><id>task_1</id>"
  ++ "<description>collect prices</description>"
  ++ "<executor_type>data_collector</executor_type></task></tasks></task_tree>".

(** A plan whose subtasks supply every element, two of them with no text. *)
Definition sample_blank_plan : Element :=
  mkElement "task_tree" None
    [ mkElement "tasks" None
        [ mkElement "task" None
            [ mkElement "id" None [];
              mkElement "name" None [];
              mkElement "description" (Some "collect prices") [];
              mkElement "executor_type" None [] ] ] ].

Definition sample_blank_text : string :=
  "<task_tree><tasks><task><id/><name/>"
  ++ "<description>collect prices</description>"
  ++ "<executor_type/></task></tasks></task_tree>".

(** A plan that uses one id for two subtasks. *)
Definition sample_repeated_id_plan : Element :=
  mkElement "task_tree" None
    [ mkElement "tasks" None
        [ task_element "task_1" None
            (mkSubtask (Some "prices") (Some "collect prices")
                       (Some "data_collector") []);
          task_element "task_1" None
            (mkSubtask (Some "news") (Some "collect news")
                       (Some "news_analyst") []) ] ].

Definition sample_repeated_id_text : string :=
  "<task_tree><tasks>"
  ++ "<task><id>task_1</id><name>prices</name>"
  ++ "<description>collect prices</description>"
  ++ "<executor_type>data_collector</executor_type>"
  ++ "<dependencies></dependencies><parameters></parameters></task>"
  ++ "<task><id>task_1</id><name>news</name>"
  ++ "<description>collect news</description>"
  ++ "<executor_type>news_analyst</executor_type>"
  ++ "<dependencies></dependencies><parameters></parameters></task>"
  ++ "</tasks></task_tree>".

(** A tree with two tasks of one id, as the parser builds it from a plan that
    repeats an id. *)
Definition sample_repeated_id_tree : TaskTree :=
  mkTaskTree 0
    [ new_Task "root" "投资分析" "analyze X" "coordinator" [] [];
      new_Task "task_1" "prices" "collect prices" "data_collector" [] [];
      new_Task "task_1" "news" "collect news" "news_analyst" [] [] ].

(** A tree with a task whose dependency no task carries. *)
Definition sample_blocked_tree : TaskTree :=
  mkTaskTree 0
    [ new_Task "root" "投资分析" "analyze X" "coordinator" [] [];
      new_Task "t1" "prices" "collect prices" "data_collector" [] [];
      new_Task "t2" "report" "write the report" "report_generator"
        ["ghost"] [] ].

(** A tree with two tasks of one id, the first of them waiting for a task
    that does not exist. *)
Definition sample_shadowed_tree : TaskTree :=
  mkTaskTree 0
    [ new_Task "root" "投资分析" "analyze X" "coordinator" [] [];
      new_Task "t1" "report" "write the report" "report_generator"
        ["ghost"] [];
      new_Task "t1" "prices" "collect prices" "data_collector" [] [] ].

(** A well-formed answer that is no plan. *)
Definition sample_refusal_text : string := "<error>no plan</error>".

Definition sample_refusal : Element :=
  mkElement "error" (Some "no plan") [].

(** The data-collection task of the default tree. *)
Definition sample_data_task : Task :=
  new_Task "data_collection" "基础数据收集"
    "收集0700.HK的基础财务和市场数据" "data_collector" []
    [("symbol", VStr "0700.HK"); ("period", VStr "1y")].

(** A tree with a task and one that depends on it. *)
Definition sample_pair_tree : TaskTree :=
  mkTaskTree 0
    [ new_Task "root" "投资分析" "analyze X" "coordinator" [] [];
      new_Task "t1" "prices" "collect prices" "data_collector" [] [];
      new_Task "t2" "report" "write the report" "report_generator" ["t1"] [] ].

Section Agent.

(** The state of everything outside the program: the language model, the
    network and the random source. *)
Variable World : Type.

(** [self.chain.invoke({"query": user_query}).content] of the planner: the
    generated plan text, or an exception. *)
Variable chain_invoke : World -> string -> World * Res string.

(** [self.agent.invoke(...)["messages"][-1].content] of the executor with the
    given key, called on the task whose name, description and parameters make
    the prompt: the answer text, or an exception. *)
Variable agent_invoke : World -> string -> Task -> World * Res string.

(** [str(uuid.uuid4())] *)
Variable uuid4 : World -> World * string.

(** [ET.fromstring]: the element tree of a document, or a [ParseError]. *)
Variable fromstring : string -> Res Element.

(** ** BaseExecutor.execute (lines 257-273) *)

(** The [context] argument is accepted and never read.  An exception of the
    agent is caught here and turned into an ordinary return value. *)
Definition execute (w : World) (executor : string) (task : Task)
    (context : option Context) : World * Res string :=
  match agent_invoke w executor task with
  | (w', Ok content) => (w', Ok content)
  | (w', Raise e) => (w', Ok ("执行失败: " ++ str e))
  end.

(** ExecutorManager.execute_task (lines 326-328) *)
Definition execute_task (w : World) (task : Task) (context : option Context)
    : World * Res string :=
  execute w (get_executor (executor_type task)) task context.

(** ** TaskPlanner._create_default_task_tree (lines 434-490) *)

Definition _create_default_task_tree (user_query : string) : TaskTree :=
  let symbol := "0700.HK" in
  let symbol :=
    if contains user_query "0700" || contains user_query "腾讯"
    then "0700.HK" else symbol in
  let root := new_Task "root" "投资分析" user_query "coordinator" [] [] in
  let tasks :=
    [ root;
      new_Task "data_collection" "基础数据收集"
        ("收集" ++ symbol ++ "的基础财务和市场数据")
        "data_collector" []
        [("symbol", VStr symbol); ("period", VStr "1y")];
      new_Task "technical_analysis" "技术面分析"
        ("分析" ++ symbol ++ "的技术指标和图表形态")
        "technical_analyst" ["data_collection"]
        [("symbol", VStr symbol); ("indicators", VStr "MA,RSI,MACD")];
      new_Task "news_analysis" "消息面分析"
        "分析相关新闻和市场情绪对投资的影响"
        "news_analyst" []
        [("keyword", VStr "腾讯控股"); ("days", VInt 7)];
      new_Task "risk_assessment" "风险评估"
        "全面评估投资风险和潜在收益"
        "risk_assessor" ["data_collection"]
        [("position_size", VStr "medium"); ("market_cap", VStr "large")];
      new_Task "report_generation" "投资报告生成"
        "整合所有分析结果，生成综合投资建议"
        "report_generator"
        ["technical_analysis"; "news_analysis"; "risk_assessment"] [] ] in
  mkTaskTree 0 tasks.

(** ** TaskPlanner._parse_task_tree_xml (lines 377-432) *)

(** Lines 381-387: the text is stripped and, when it does not start with
    ['<'], cut down to the fragment from ['<task_tree>'] to the first
    ['</task_tree>'] after it. *)
Definition clean_xml_text (xml_text : string) : string :=
  let xml_text := strip xml_text in
  if negb (startswith xml_text "<") then
    let start_idx := find xml_text "<task_tree>" in
    if negb (start_idx =? -1)%Z then
      let xml_text := slice_from xml_text start_idx in
      let end_idx :=
        (find xml_text "</task_tree>" + Z.of_nat (length "</task_tree>"))%Z in
      slice_to xml_text end_idx
    else xml_text
  else xml_text.

(** Lines 406-409 *)
Definition parse_dependencies (task_elem : Element) : list string :=
  match elem_find task_elem "dependencies" with
  | Some deps_elem =>
      match text deps_elem with
      | Some deps_text =>
          if negb (deps_text =? "") then
            map strip
              (filter (fun d => negb (strip d =? "")) (split_comma deps_text))
          else []
      | None => []
      end
  | None => []
  end.

(** Lines 412-416 *)
Definition parse_parameters (task_elem : Element) : list (string * PyVal) :=
  match elem_find task_elem "parameters" with
  | Some params_elem =>
      fold_left (fun params param =>
                   dict_set params (tag param) (text_value (text param)))
                (children params_elem) []
  | None => []
  end.

(** [task_elem.find(t).text]: an [AttributeError] when there is no such
    child. *)
Definition field_text (task_elem : Element) (t : string)
    : Res (option string) :=
  match elem_find task_elem t with
  | Some e => Ok (text e)
  | None => Raise (Exception "'NoneType' object has no attribute 'text'")
  end.

(** Lines 405-425: one [Task] from one [<task>] element.  The four fields are
    read in the order written; [uuid4] is called only when the id text is
    falsy. *)
Definition parse_task (w : World) (task_elem : Element) : World * Res Task :=
  let deps := parse_dependencies task_elem in
  let params := parse_parameters task_elem in
  match field_text task_elem "id" with
  | Raise e => (w, Raise e)
  | Ok id_text =>
      let '(w1, task_id) :=
        match id_text with
        | Some s => if s =? "" then uuid4 w else (w, s)
        | None => uuid4 w
        end in
      match field_text task_elem "name" with
      | Raise e => (w1, Raise e)
      | Ok name_text =>
          match field_text task_elem "description" with
          | Raise e => (w1, Raise e)
          | Ok description_text =>
              match field_text task_elem "executor_type" with
              | Raise e => (w1, Raise e)
              | Ok executor_text =>
                  (w1, Ok (new_Task task_id
                             (text_or name_text "默认任务")
                             (text_or description_text "默认描述")
                             (text_or executor_text "data_collector")
                             deps params))
              end
          end
      end
  end.

(** Lines 404-426: the loop over the [<task>] elements, appending to
    [tasks]; the first exception leaves the loop. *)
Fixpoint parse_tasks (w : World) (task_elems : list Element)
    (tasks : list Task) : World * Res (list Task) :=
  match task_elems with
  | [] => (w, Ok tasks)
  | task_elem :: rest =>
      match parse_task w task_elem with
      | (w1, Ok task) => parse_tasks w1 rest (tasks ++ [task])
      | (w1, Raise e) => (w1, Raise e)
      end
  end.

(** The body of the [try] (lines 380-428). *)
Definition _parse_task_tree_xml_try (w : World) (xml_text user_query : string)
    : World * Res TaskTree :=
  match fromstring (clean_xml_text xml_text) with
  | Raise e => (w, Raise e)
  | Ok root =>
      let root_task := new_Task "root" "投资分析" user_query "coordinator" [] [] in
      let tasks := [root_task] in
      match elem_find root "tasks" with
      | Some tasks_elem =>
          match parse_tasks w (findall tasks_elem "task") tasks with
          | (w1, Ok tasks) => (w1, Ok (mkTaskTree 0 tasks))
          | (w1, Raise e) => (w1, Raise e)
          end
      | None => (w, Ok (mkTaskTree 0 tasks))
      end
  end.

Definition _parse_task_tree_xml (w : World) (xml_text user_query : string)
    : World * Res TaskTree :=
  match _parse_task_tree_xml_try w xml_text user_query with
  | (w1, Ok tree) => (w1, Ok tree)
  | (w1, Raise e) => (w1, Ok (_create_default_task_tree user_query))
  end.

(** ** TaskPlanner.create_task_tree (lines 365-375) *)

Definition create_task_tree (w : World) (user_query : string)
    : World * Res TaskTree :=
  let body :=
    match chain_invoke w user_query with
    | (w1, Ok task_tree_xml) => _parse_task_tree_xml w1 task_tree_xml user_query
    | (w1, Raise e) => (w1, Raise e)
    end in
  match body with
  | (w2, Ok tree) => (w2, Ok tree)
  | (w2, Raise e) => (w2, Ok (_create_default_task_tree user_query))
  end.

(** ** execution_node (lines 544-614) *)

(** Lines 562-580: the body of [for task in ready_tasks].  [task] is an
    element of the list [get_ready_tasks] returned; only fields no update
    changes are read from it. *)
Definition run_task (query : string) (st : World * TaskTree) (task : Task)
    : World * TaskTree :=
  let '(w, task_tree) := st in
  if id task =? "root" then
    (w, update_task_status task_tree (id task) "completed" None)
  else
    let context :=
      mkContext (filter (fun t => status t =? "completed") (tasks task_tree))
                query in
    match execute_task w task (Some context) with
    | (w1, Ok result) =>
        (w1, update_task_status task_tree (id task) "completed" (Some result))
    | (w1, Raise e) =>
        (w1, update_task_status task_tree (id task) "failed" (Some (str e)))
    end.

(** One pass of the [while True] loop past its [break]: every task of the
    batch is run in turn. *)
Definition run_batch (query : string) (w : World) (task_tree : TaskTree)
    (ready_tasks : list Task) : World * TaskTree :=
  fold_left (run_task query) ready_tasks (w, task_tree).

(** Lines 557-580: the [while True] loop, with at most [fuel] evaluations of
    its condition; [None] when the loop has not left by then. *)
Fixpoint execution_loop (fuel : nat) (query : string) (w : World)
    (task_tree : TaskTree) : option (World * TaskTree) :=
  match fuel with
  | 0 => None
  | S fuel' =>
      let ready_tasks := get_ready_tasks task_tree in
      match ready_tasks with
      | [] => Some (w, task_tree)
      | _ :: _ =>
          let '(w1, task_tree1) := run_batch query w task_tree ready_tasks in
          execution_loop fuel' query w1 task_tree1
      end
  end.

(** Lines 583-588: the tasks whose results enter the final report. *)
Definition report_tasks (task_tree : TaskTree) : list Task :=
  let completed_tasks :=
    filter (fun t => (status t =? "completed") && truthy (result t))
           (tasks task_tree) in
  filter (fun task => negb (id task =? "root")) completed_tasks.

(** [execution_node]: the workflow stage it reports, with the world and the
    tree it leaves behind. *)
Definition execution_node (fuel : nat) (w : World)
    (task_tree : option TaskTree) (query : string)
    : option (World * option TaskTree * string) :=
  match task_tree with
  | None => Some (w, None, "error")
  | Some tree =>
      match execution_loop fuel query w tree with
      | Some (w1, tree1) => Some (w1, Some tree1, "complete")
      | None => None
      end
  end.

(** Lines 583-588 and 595: the tasks counted as completed in the report,
    and one section of text for each of them but the root. *)
Definition counted_tasks (task_tree : TaskTree) : list Task :=
  filter (fun t => (status t =? "completed") && truthy (result t))
         (tasks task_tree).

Definition newline : string := String (ascii_of_nat 10) "".

(** [f"{x}"] for an [Optional[str]]. *)
Definition format_optional (x : option string) : string :=
  match x with
  | Some s => s
  | None => "None"
  end.

Definition all_results (task_tree : TaskTree) : list string :=
  map (fun task =>
         "**" ++ name task ++ "**:" ++ newline
         ++ format_optional (result task) ++ newline)
      (report_tasks task_tree).

(** ** planning_node (lines 498-542) *)

(** A part of a structured message content.  Of a dict, what
    [part.get('type')] and [part.get('text')] give ([None] when the key is
    absent); anything else is not a dict. *)
Inductive Part : Type :=
| PartDict (part_type part_text : option PyVal)
| PartOther.

(** The content of a message: a text or a list of parts. *)
Inductive Content : Type :=
| ContentStr (s : string)
| ContentList (parts : list Part).

(** [l[-1]] *)
Definition last_item {A : Type} (l : list A) : Res A :=
  match rev l with
  | [] => Raise (Exception "list index out of range")
  | x :: _ => Ok x
  end.

(** Lines 507-510: [part.get('text', '')] of every dict part whose type is
    ['text']. *)
Fixpoint text_parts (parts : list Part) : list PyVal :=
  match parts with
  | [] => []
  | part :: rest =>
      match part with
      | PartDict (Some (VStr t)) part_text =>
          if t =? "text" then
            match part_text with
            | Some v => v
            | None => VStr ""
            end :: text_parts rest
          else text_parts rest
      | _ => text_parts rest
      end
  end.

(** [type(v).__name__] *)
Definition type_name (v : PyVal) : string :=
  match v with
  | VNone => "NoneType"
  | VStr _ => "str"
  | VInt _ => "int"
  end.

(** [str(i)] for an index. *)
Definition decimal (i : nat) : string :=
  NilEmpty.string_of_uint (Nat.to_uint i).

(** [' '.join(l)], at item [i] of the whole list: a [TypeError] at the first
    item that is not a [str]. *)
Fixpoint join_from (i : nat) (l : list PyVal) : Res string :=
  match l with
  | [] => Ok ""
  | VStr s :: rest =>
      match rest with
      | [] => Ok s
      | _ :: _ =>
          match join_from (S i) rest with
          | Ok joined => Ok (s ++ " " ++ joined)
          | Raise e => Raise e
          end
      end
  | v :: _ =>
      Raise (Exception ("sequence item " ++ decimal i
                        ++ ": expected str instance, " ++ type_name v
                        ++ " found"))
  end.

Definition join_space (l : list PyVal) : Res string := join_from 0 l.

(** Lines 501-513: the request, from [state.get("user_query")] or else from
    the content of the last message. *)
Definition request_of (state_query : option string) (messages : list Content)
    : Res string :=
  match state_query with
  | Some q => if negb (q =? "") then Ok q else
      match last_item messages with
      | Raise e => Raise e
      | Ok (ContentList parts) => join_space (text_parts parts)
      | Ok (ContentStr last_message) => Ok last_message
      end
  | None =>
      match last_item messages with
      | Raise e => Raise e
      | Ok (ContentList parts) => join_space (text_parts parts)
      | Ok (ContentStr last_message) => Ok last_message
      end
  end.

(** What [planning_node] returns: the tree, the request, the stage, and the
    two values its message interpolates, [len(task_tree.tasks)] and
    [task_tree.root_task.name]. *)
Record Planning : Type := mkPlanning {
  planned_tree : TaskTree;
  planned_query : string;
  planned_stage : string;
  planned_count : nat;
  planned_root_name : option string
}.

Definition planning_node (w : World) (state_query : option string)
    (messages : list Content) : World * Res Planning :=
  match request_of state_query messages with
  | Raise e => (w, Raise e)
  | Ok query =>
      match create_task_tree w query with
      | (w1, Raise e) => (w1, Raise e)
      | (w1, Ok task_tree) =>
          (w1, Ok (mkPlanning task_tree query "planning_complete"
                     (List.length (tasks task_tree))
                     (option_map name
                        (nth_error (tasks task_tree) (root_task task_tree)))))
      end
  end.

(** ** build_analysis_graph (lines 618-634) *)

(** The compiled graph runs [planning_node], then [execution_node] on the
    state the planning left: its tree and its request. *)
Definition run_graph (fuel : nat) (w : World) (state_query : option string)
    (messages : list Content)
    : Res (option (World * option TaskTree * string)) :=
  match planning_node w state_query messages with
  | (w1, Raise e) => Raise e
  | (w1, Ok planning) =>
      Ok (execution_node fuel w1 (Some (planned_tree planning))
            (planned_query planning))
  end.

(** ** Vocabulary of the properties *)

Open Scope list_scope.

(** The test a task passes to be ready, all dependencies checked alike. *)
Definition ready_test (ts : list Task) (task : Task) : bool :=
  (status task =? "pending") && forallb (dep_completed ts) (dependencies task).

(** What a task is apart from its status and result. *)
Definition topology (t : Task) :=
  (id t, name t, description t, executor_type t, dependencies t, parameters t).

(** [task] with another status and the result it has. *)
Definition with_status (task : Task) (new_status : string) : Task :=
  mkTask (id task) (name task) (description task) (executor_type task)
         (dependencies task) (parameters task) new_status (result task).

Definition ids (ts : list Task) : list string := map id ts.

(** The trees the program can hold: what [create_task_tree] returns, and what
    the body of the scheduler's loop makes of such a tree, for any task it
    is run on. *)
Inductive reachable : TaskTree -> Prop :=
| reachable_created (w : World) (query : string) (tree : TaskTree) :
    snd (create_task_tree w query) = Ok tree -> reachable tree
| reachable_run (query : string) (w : World) (tree : TaskTree) (task : Task) :
    reachable tree -> reachable (snd (run_task query (w, tree) task)).

(** The one-way reading of "a result is set only on a finished task". *)
Definition result_implies_finished (t : Task) : Prop :=
  result t <> None -> status t = "completed" \/ status t = "failed".

(** The root is never given a result. *)
Definition root_without_result (t : Task) : Prop :=
  id t = "root" -> result t = None.

(** A task as the constructor leaves it. *)
Definition fresh (t : Task) : Prop := status t = "pending" /\ result t = None.

(** The four fields the parser reads with [task_elem.find(...).text]. *)
Definition required_fields : list string :=
  ["id"; "name"; "description"; "executor_type"].

(** The number of pending tasks. *)
Definition pending_count (ts : list Task) : nat :=
  List.length (filter (fun t => status t =? "pending") ts).

(** Every completed task has its dependencies completed. *)
Definition deps_closed (ts : list Task) : bool :=
  forallb (fun t => negb (status t =? "completed")
                    || forallb (dep_completed ts) (dependencies t)) ts.

(** Every dependency of a task is an id of [seen] or of a task before it in
    the list. *)
Fixpoint deps_earlier (seen : list string) (ts : list Task) : bool :=
  match ts with
  | [] => true
  | t :: rest =>
      forallb (fun d => existsb (String.eqb d) seen) (dependencies t)
      && deps_earlier (id t :: seen) rest
  end.

(** How a task may differ after the scheduler has run: not at all, or by
    being completed. *)
Definition moved (t t' : Task) : Prop :=
  topology t' = topology t /\
  ((status t' = status t /\ result t' = result t) \/ status t' = "completed").

(** [d.get(k)] on a dict kept in insertion order. *)
Fixpoint dict_get (d : list (string * PyVal)) (k : string) : option PyVal :=
  match d with
  | [] => None
  | (k', v) :: d' => if k' =? k then Some v else dict_get d' k
  end.

(** The text of a field of a subtask, or its default. *)
Definition field_or (task_elem : Element) (field default : string) : string :=
  match elem_find task_elem field with
  | Some e => text_or (text e) default
  | None => default
  end.

(** What the parser makes of a [<task>] element that has its four fields:
    the id is the text of the id element unless that is blank. *)
Definition parsed_from (task_elem : Element) (t : Task) : Prop :=
  (field_or task_elem "id" "" <> "" -> id t = field_or task_elem "id" "") /\
  name t = field_or task_elem "name" "默认任务" /\
  description t = field_or task_elem "description" "默认描述" /\
  executor_type t = field_or task_elem "executor_type" "data_collector" /\
  dependencies t = parse_dependencies task_elem /\
  parameters t = parse_parameters task_elem /\
  status t = "pending" /\ result t = None.

(** A completed task other than the root has a result with text. *)
Definition completed_with_result (t : Task) : Prop :=
  status t = "completed" -> id t <> "root" -> truthy (result t) = true.

(** A part whose text enters the request: a dict of type ['text']. *)
Definition is_text_part (p : Part) : bool :=
  match p with
  | PartDict (Some (VStr t)) _ => t =? "text"
  | _ => false
  end.

(** [task_elem] is the element of a subtask that has its four fields,
    declares the id [i] and is read with the dependencies [deps]: wherever
    its children stand, whatever text surrounds them, and however the
    dependency list is padded. *)
Definition subtask_element (task_elem : Element) (i : string)
    (deps : list string) : Prop :=
  (forall field, In field required_fields ->
                 elem_find task_elem field <> None) /\
  field_or task_elem "id" "" = i /\ i <> "" /\
  parse_dependencies task_elem = deps.

(** * Properties *)

(** ** Readiness *)

Lemma all_deps_completed_forallb (ts : list Task) (task : Task) :
  all_deps_completed ts task = forallb (dep_completed ts) (dependencies task).
Proof.
  unfold all_deps_completed. destruct (dependencies task); reflexivity.
Qed.

Lemma ready_loop_filter (all rest : list Task) :
  ready_loop all rest = filter (ready_test all) rest.
Proof.
  induction rest as [|task rest IH]; simpl; [reflexivity|].
  unfold ready_test at 1. rewrite <- all_deps_completed_forallb, IH.
  destruct (status task =? "pending"); simpl; [|reflexivity].
  destruct (all_deps_completed all task); reflexivity.
Qed.

Lemma dep_completed_iff (ts : list Task) (d : string) :
  dep_completed ts d = true <->
  exists t, In t ts /\ id t = d /\ status t = "completed".
Proof.
  unfold dep_completed. rewrite existsb_exists. split.
  - intros (t & Hin & Ht). apply andb_true_iff in Ht as [Hid Hst].
    apply String.eqb_eq in Hid, Hst. eauto.
  - intros (t & Hin & Hid & Hst). exists t. split; [assumption|].
    apply andb_true_iff. split; apply String.eqb_eq; assumption.
Qed.

Lemma ready_test_iff (ts : list Task) (task : Task) :
  ready_test ts task = true <->
  status task = "pending" /\
  forall d, In d (dependencies task) ->
            exists t, In t ts /\ id t = d /\ status t = "completed".
Proof.
  unfold ready_test. rewrite andb_true_iff, String.eqb_eq, forallb_forall.
  split; intros [Hst Hdeps]; (split; [assumption|]);
    intros d Hd; apply dep_completed_iff; auto.
Qed.

Lemma get_ready_tasks_filter (self : TaskTree) :
  get_ready_tasks self = filter (ready_test (tasks self)) (tasks self).
Proof. apply ready_loop_filter. Qed.

Lemma in_get_ready_tasks (self : TaskTree) (task : Task) :
  In task (get_ready_tasks self) <->
  In task (tasks self) /\ ready_test (tasks self) task = true.
Proof. rewrite get_ready_tasks_filter. apply filter_In. Qed.

(** C1.  [get_ready_tasks] returns, in list order, exactly the tasks that are
    pending and whose every dependency id is the id of some completed task of
    the same tree.  A pending task without dependencies is returned; a task
    with a dependency id that no completed task carries (no task has it, or
    only tasks that are not completed) is not returned. *)
Theorem get_ready_tasks_exact (self : TaskTree) :
  get_ready_tasks self = filter (ready_test (tasks self)) (tasks self) /\
  (forall task,
      In task (get_ready_tasks self) <->
      In task (tasks self) /\ status task = "pending" /\
      forall d, In d (dependencies task) ->
                exists t, In t (tasks self) /\ id t = d /\
                          status t = "completed") /\
  (forall task,
      In task (tasks self) -> status task = "pending" ->
      dependencies task = [] -> In task (get_ready_tasks self)) /\
  (forall task d,
      In d (dependencies task) ->
      (forall t, In t (tasks self) -> id t = d -> status t <> "completed") ->
      ~ In task (get_ready_tasks self)).
Proof.
  split; [apply get_ready_tasks_filter|].
  assert (Hiff : forall task,
      In task (get_ready_tasks self) <->
      In task (tasks self) /\ status task = "pending" /\
      forall d, In d (dependencies task) ->
                exists t, In t (tasks self) /\ id t = d /\
                          status t = "completed").
  { intros task. rewrite in_get_ready_tasks, ready_test_iff. tauto. }
  split; [exact Hiff|]. split.
  - intros task Hin Hst Hdeps. apply Hiff. repeat split; try assumption.
    rewrite Hdeps. intros d [].
  - intros task d Hd Hnone Hready. apply Hiff in Hready as (_ & _ & Hdeps).
    destruct (Hdeps d Hd) as (t & Hin & Hid & Hst).
    exact (Hnone t Hin Hid Hst).
Qed.

(** ** Status updates *)

Lemma update_loop_topology (ts : list Task) (task_id new_status : string)
    (new_result : option string) :
  map topology (update_loop ts task_id new_status new_result)
  = map topology ts.
Proof.
  induction ts as [|task rest IH]; simpl; [reflexivity|].
  destruct (id task =? task_id); simpl; [reflexivity|].
  now rewrite IH.
Qed.

Lemma update_loop_absent (ts : list Task) (task_id new_status : string)
    (new_result : option string) :
  (forall t, In t ts -> id t <> task_id) ->
  update_loop ts task_id new_status new_result = ts.
Proof.
  induction ts as [|task rest IH]; simpl; intros Hno; [reflexivity|].
  destruct (String.eqb_spec (id task) task_id) as [Heq|_].
  - exfalso. apply (Hno task); auto.
  - f_equal. apply IH. intros t Ht. apply Hno. auto.
Qed.

Lemma update_loop_first_match (before after : list Task) (task : Task)
    (task_id new_status : string) (new_result : option string) :
  (forall t, In t before -> id t <> task_id) ->
  id task = task_id ->
  update_loop (before ++ task :: after) task_id new_status new_result
  = before ++ assign_status task new_status new_result :: after.
Proof.
  intros Hno Hid. induction before as [|b before IH]; simpl.
  - rewrite Hid, String.eqb_refl. reflexivity.
  - destruct (String.eqb_spec (id b) task_id) as [Heq|_].
    + exfalso. apply (Hno b); simpl; auto.
    + f_equal. apply IH. intros t Ht. apply Hno. simpl. auto.
Qed.

(** The list splits at the first task carrying the id, if any does. *)
Lemma first_match_split (ts : list Task) (task_id : string) :
  (forall t, In t ts -> id t <> task_id) \/
  exists before task after,
    ts = before ++ task :: after /\
    (forall t, In t before -> id t <> task_id) /\ id task = task_id.
Proof.
  induction ts as [|task rest IH]; [left; intros t []|].
  destruct (String.eqb_spec (id task) task_id) as [Heq|Hne].
  - right. exists [], task, rest. repeat split; [intros t []|assumption].
  - destruct IH as [Hno|(before & m & after & Hts & Hno & Hid)].
    + left. intros t [<-|Ht]; auto.
    + right. exists (task :: before), m, after. rewrite Hts.
      repeat split; [|assumption]. intros t [<-|Ht]; auto.
Qed.

Lemma assign_status_twice (task : Task) (new_status : string)
    (new_result : option string) :
  assign_status (assign_status task new_status new_result)
                new_status new_result
  = assign_status task new_status new_result.
Proof.
  unfold assign_status; simpl. destruct (truthy new_result); reflexivity.
Qed.

Lemma update_loop_twice (ts : list Task) (task_id new_status : string)
    (new_result : option string) :
  update_loop (update_loop ts task_id new_status new_result)
              task_id new_status new_result
  = update_loop ts task_id new_status new_result.
Proof.
  induction ts as [|task rest IH]; simpl; [reflexivity|].
  destruct (id task =? task_id) eqn:Heq; simpl.
  - rewrite Heq, assign_status_twice. reflexivity.
  - rewrite Heq, IH. reflexivity.
Qed.

(** C8.  [update_task_status] is idempotent: a second call with the same
    arguments leaves the tree as the first call left it.  When no task
    carries the id, the call returns the tree unchanged. *)
Theorem update_task_status_idempotent (self : TaskTree)
    (task_id new_status : string) (new_result : option string) :
  update_task_status
    (update_task_status self task_id new_status new_result)
    task_id new_status new_result
  = update_task_status self task_id new_status new_result /\
  ((forall t, In t (tasks self) -> id t <> task_id) ->
   update_task_status self task_id new_status new_result = self).
Proof.
  unfold update_task_status; simpl. split.
  - rewrite update_loop_twice. reflexivity.
  - intros Hno. rewrite update_loop_absent by assumption.
    destruct self; reflexivity.
Qed.

(** ** The scheduler's operations are status updates *)

(** [BaseExecutor.execute] returns normally whatever the agent does. *)
Lemma execute_returns (w : World) (executor : string) (task : Task)
    (context : option Context) :
  exists w' answer, execute w executor task context = (w', Ok answer).
Proof.
  unfold execute. destruct (agent_invoke w executor task) as [w' [content|e]];
    eauto.
Qed.

(** So the [except] branch of [execution_node] is never taken: every task
    the loop runs is marked completed. *)
Lemma run_task_update (query : string) (w : World) (tree : TaskTree)
    (task : Task) :
  exists w' r,
    run_task query (w, tree) task
    = (w', update_task_status tree (id task) "completed" r).
Proof.
  unfold run_task. destruct (id task =? "root"); [eauto|].
  unfold execute_task.
  destruct (execute_returns w (get_executor (executor_type task)) task
              (Some (mkContext
                       (filter (fun t => status t =? "completed") (tasks tree))
                       query))) as (w' & answer & ->).
  eauto.
Qed.

Lemma run_task_topology (query : string) (st : World * TaskTree) (task : Task) :
  map topology (tasks (snd (run_task query st task)))
  = map topology (tasks (snd st)).
Proof.
  destruct st as [w tree].
  destruct (run_task_update query w tree task) as (w' & r & ->).
  apply update_loop_topology.
Qed.

Lemma fold_run_task_topology (query : string) (batch : list Task)
    (st : World * TaskTree) :
  map topology (tasks (snd (fold_left (run_task query) batch st)))
  = map topology (tasks (snd st)).
Proof.
  revert st. induction batch as [|task batch IH]; intros st; simpl;
    [reflexivity|].
  rewrite IH. apply run_task_topology.
Qed.

Lemma execution_loop_topology (fuel : nat) (query : string) (w w' : World)
    (tree tree' : TaskTree) :
  execution_loop fuel query w tree = Some (w', tree') ->
  map topology (tasks tree') = map topology (tasks tree).
Proof.
  revert w tree. induction fuel as [|fuel IH]; intros w tree; simpl;
    [discriminate|].
  destruct (get_ready_tasks tree) as [|task batch] eqn:Hready.
  - intros [= <- <-]. reflexivity.
  - destruct (run_batch query w tree (task :: batch)) as [w1 tree1] eqn:Hb.
    intros Hloop. rewrite (IH _ _ Hloop).
    change tree1 with (snd (w1, tree1)). rewrite <- Hb.
    apply (fold_run_task_topology query (task :: batch) (w, tree)).
Qed.

(** C9.  [update_task_status] keeps [root_task] and every task's id, name,
    description, executor type, dependencies and parameters; either no task
    carries the id and nothing changes, or the first task carrying it gets
    the new status (and result) and every other task stays as it is.  A batch
    of the scheduler and a whole run of its loop keep the topology too. *)
Theorem update_task_status_frame (self : TaskTree)
    (task_id new_status : string) (new_result : option string) :
  let self' := update_task_status self task_id new_status new_result in
  root_task self' = root_task self /\
  map topology (tasks self') = map topology (tasks self) /\
  ((forall t, In t (tasks self) -> id t <> task_id) /\ self' = self \/
   exists before task after,
     tasks self = before ++ task :: after /\
     (forall t, In t before -> id t <> task_id) /\ id task = task_id /\
     tasks self' = before ++ assign_status task new_status new_result :: after /\
     topology (assign_status task new_status new_result) = topology task) /\
  (forall query w batch,
      map topology (tasks (snd (run_batch query w self batch)))
      = map topology (tasks self)) /\
  (forall fuel query w w' tree',
      execution_loop fuel query w self = Some (w', tree') ->
      map topology (tasks tree') = map topology (tasks self)).
Proof.
  cbv zeta. split; [reflexivity|].
  split; [apply update_loop_topology|]. split.
  - destruct (first_match_split (tasks self) task_id)
      as [Hno|(before & task & after & Hts & Hno & Hid)].
    + left. split; [assumption|].
      unfold update_task_status. rewrite update_loop_absent by assumption.
      destruct self; reflexivity.
    + right. exists before, task, after.
      repeat split; try assumption.
      simpl. rewrite Hts. apply update_loop_first_match; assumption.
  - split.
    + intros query w batch.
      apply (fold_run_task_topology query batch (w, self)).
    + intros fuel query w w' tree'. apply execution_loop_topology.
Qed.

(** ** Falsy results *)

Lemma update_loop_falsy_results (ts : list Task) (task_id new_status : string)
    (new_result : option string) :
  truthy new_result = false ->
  map result (update_loop ts task_id new_status new_result) = map result ts.
Proof.
  intros Hfalsy. induction ts as [|task rest IH]; simpl; [reflexivity|].
  destruct (id task =? task_id); simpl.
  - rewrite Hfalsy. reflexivity.
  - now rewrite IH.
Qed.

Lemma assign_status_keeps_result_set (task : Task) (new_status : string)
    (new_result : option string) :
  result task <> None ->
  result (assign_status task new_status new_result) <> None.
Proof.
  intros Hset. simpl. destruct new_result as [s|]; simpl; [|assumption].
  destruct (s =? ""); simpl; [assumption|discriminate].
Qed.

Lemma update_loop_keeps_result_set (ts : list Task)
    (task_id new_status : string) (new_result : option string)
    (i : nat) (t t' : Task) :
  nth_error ts i = Some t ->
  nth_error (update_loop ts task_id new_status new_result) i = Some t' ->
  result t <> None -> result t' <> None.
Proof.
  revert i. induction ts as [|task rest IH]; intros i; simpl.
  - destruct i; discriminate.
  - destruct (id task =? task_id).
    + destruct i as [|i]; simpl.
      * intros [= <-] [= <-]. apply assign_status_keeps_result_set.
      * intros Ht Ht'. rewrite Ht in Ht'. injection Ht' as <-. auto.
    + destruct i as [|i]; simpl.
      * intros [= <-] [= <-]. auto.
      * apply IH.
Qed.

(** C10.  Called with a falsy result ([None] or the empty text),
    [update_task_status] leaves every result field as it was while the first
    task carrying the id takes the new status.  Whatever the arguments, a
    result that was set is still set after the call. *)
Theorem update_task_status_falsy_result (self : TaskTree)
    (task_id new_status : string) (new_result : option string) :
  (new_result = None \/ new_result = Some "" ->
   map result (tasks (update_task_status self task_id new_status new_result))
   = map result (tasks self) /\
   forall before task after,
     tasks self = before ++ task :: after ->
     (forall t, In t before -> id t <> task_id) -> id task = task_id ->
     tasks (update_task_status self task_id new_status new_result)
     = before ++ with_status task new_status :: after) /\
  (forall i t t',
      nth_error (tasks self) i = Some t ->
      nth_error
        (tasks (update_task_status self task_id new_status new_result)) i
      = Some t' ->
      result t <> None -> result t' <> None).
Proof.
  split.
  - intros Hfalsy.
    assert (Hf : truthy new_result = false)
      by (destruct Hfalsy as [-> | ->]; reflexivity).
    split; [apply update_loop_falsy_results; assumption|].
    intros before task after Hts Hno Hid. simpl. rewrite Hts.
    rewrite update_loop_first_match by assumption.
    unfold assign_status, with_status. rewrite Hf. reflexivity.
  - intros i t t'. apply update_loop_keeps_result_set.
Qed.

(** ** The planner never raises *)

Lemma _parse_task_tree_xml_returns (w : World) (xml_text query : string) :
  exists w' tree, _parse_task_tree_xml w xml_text query = (w', Ok tree).
Proof.
  unfold _parse_task_tree_xml.
  destruct (_parse_task_tree_xml_try w xml_text query) as [w' [tree|e]]; eauto.
Qed.

Lemma _parse_task_tree_xml_fallback (w w' : World) (xml_text query : string)
    (e : Exn) :
  _parse_task_tree_xml_try w xml_text query = (w', Raise e) ->
  _parse_task_tree_xml w xml_text query
  = (w', Ok (_create_default_task_tree query)).
Proof. unfold _parse_task_tree_xml. now intros ->. Qed.

Lemma parse_error_fallback (w : World) (xml_text query : string) (e : Exn) :
  fromstring (clean_xml_text xml_text) = Raise e ->
  _parse_task_tree_xml w xml_text query
  = (w, Ok (_create_default_task_tree query)).
Proof.
  intros Hparse. apply (_parse_task_tree_xml_fallback w w xml_text query e).
  unfold _parse_task_tree_xml_try. now rewrite Hparse.
Qed.

(** C4, as the code has it.  [create_task_tree] returns a tree for every
    request, whatever the generator and the XML parser do.  When the
    generator raises, when the plan text is not well-formed XML, or when
    anything else raises while the plan is read, the tree returned is the
    default tree of the request.  The default tree has six tasks: the root
    and the data-collection task without dependencies, the technical and the
    risk task depending on the data-collection task, the news task without
    dependencies, and the report task depending on the technical, news and
    risk tasks. *)
Theorem create_task_tree_fallback (w : World) (query : string) :
  (exists w' tree, create_task_tree w query = (w', Ok tree)) /\
  (forall w1 e,
      chain_invoke w query = (w1, Raise e) ->
      create_task_tree w query = (w1, Ok (_create_default_task_tree query))) /\
  (forall w1 xml_text e,
      chain_invoke w query = (w1, Ok xml_text) ->
      fromstring (clean_xml_text xml_text) = Raise e ->
      create_task_tree w query = (w1, Ok (_create_default_task_tree query))) /\
  (forall w1 xml_text w2 e,
      chain_invoke w query = (w1, Ok xml_text) ->
      _parse_task_tree_xml_try w1 xml_text query = (w2, Raise e) ->
      create_task_tree w query = (w2, Ok (_create_default_task_tree query))) /\
  map (fun t => (id t, dependencies t))
      (tasks (_create_default_task_tree query))
  = [ ("root", []);
      ("data_collection", []);
      ("technical_analysis", ["data_collection"]);
      ("news_analysis", []);
      ("risk_assessment", ["data_collection"]);
      ("report_generation",
       ["technical_analysis"; "news_analysis"; "risk_assessment"]) ] /\
  nth_error (tasks (_create_default_task_tree query))
            (root_task (_create_default_task_tree query))
  = Some (new_Task "root" "投资分析" query "coordinator" [] []).
Proof.
  unfold create_task_tree. repeat split.
  - destruct (chain_invoke w query) as [w1 [xml_text|e]]; [|eauto].
    destruct (_parse_task_tree_xml_returns w1 xml_text query)
      as (w2 & tree & ->). eauto.
  - intros w1 e ->. reflexivity.
  - intros w1 xml_text e -> Hparse.
    now rewrite (parse_error_fallback w1 xml_text query e Hparse).
  - intros w1 xml_text w2 e -> Htry.
    now rewrite (_parse_task_tree_xml_fallback _ _ _ _ _ Htry).
Qed.

(** ** Subtasks with missing or blank fields *)

Lemma parse_task_missing_field (w : World) (task_elem : Element)
    (field : string) :
  In field required_fields ->
  elem_find task_elem field = None ->
  exists w' e, parse_task w task_elem = (w', Raise e).
Proof.
  intros Hfield Hmissing. unfold parse_task, field_text.
  destruct (elem_find task_elem "id") as [id_elem|] eqn:Hid; [|eauto].
  destruct (match text id_elem with
            | Some s => if s =? "" then uuid4 w else (w, s)
            | None => uuid4 w
            end) as [w1 task_id].
  destruct (elem_find task_elem "name") as [name_elem|] eqn:Hname; [|eauto].
  destruct (elem_find task_elem "description") as [d_elem|] eqn:Hd; [|eauto].
  destruct (elem_find task_elem "executor_type") as [e_elem|] eqn:He; [|eauto].
  exfalso. simpl in Hfield.
  destruct Hfield as [<-|[<-|[<-|[<-|[]]]]]; congruence.
Qed.

Lemma parse_tasks_raises (task_elems : list Element) (task_elem : Element) :
  In task_elem task_elems ->
  (forall w, exists w' e, parse_task w task_elem = (w', Raise e)) ->
  forall w acc, exists w' e, parse_tasks w task_elems acc = (w', Raise e).
Proof.
  intros Hin Hraise.
  induction task_elems as [|first rest IH]; [destruct Hin|].
  intros w acc. simpl.
  destruct (parse_task w first) as [w1 [task|e]] eqn:Hfirst; [|eauto].
  destruct Hin as [->|Hin]; [|apply IH; assumption].
  destruct (Hraise w) as (w' & e & Hw). congruence.
Qed.

(** C7, at the failing inputs.  When a subtask of a parseable plan lacks the
    element of one of its four fields, reading the plan raises and
    [_parse_task_tree_xml] returns the default tree: no task of the plan is
    kept. *)
Theorem missing_field_discards_plan (w : World) (xml_text query : string)
    (root tasks_elem task_elem : Element) (field : string) :
  fromstring (clean_xml_text xml_text) = Ok root ->
  elem_find root "tasks" = Some tasks_elem ->
  In task_elem (findall tasks_elem "task") ->
  In field required_fields ->
  elem_find task_elem field = None ->
  snd (_parse_task_tree_xml w xml_text query)
  = Ok (_create_default_task_tree query).
Proof.
  intros Hparse Htasks Hin Hfield Hmissing.
  destruct (parse_tasks_raises (findall tasks_elem "task") task_elem Hin
              (fun w0 => parse_task_missing_field w0 task_elem field
                           Hfield Hmissing)
              w [new_Task "root" "投资分析" query "coordinator" [] []])
    as (w' & e & Hraise).
  rewrite (_parse_task_tree_xml_fallback w w' xml_text query e); [reflexivity|].
  unfold _parse_task_tree_xml_try. rewrite Hparse, Htasks, Hraise. reflexivity.
Qed.

(** X3.  Where the elements of the four fields are there, the task is kept;
    a field without text takes its default: a fresh identifier, the default
    name, the default description, the data collector. *)
Lemma parse_task_blank_fields (w : World) (task_elem : Element)
    (id_elem name_elem description_elem executor_elem : Element) :
  elem_find task_elem "id" = Some id_elem ->
  elem_find task_elem "name" = Some name_elem ->
  elem_find task_elem "description" = Some description_elem ->
  elem_find task_elem "executor_type" = Some executor_elem ->
  parse_task w task_elem
  = (if truthy (text id_elem) then w else fst (uuid4 w),
     Ok (new_Task
           (if truthy (text id_elem) then text_or (text id_elem) ""
            else snd (uuid4 w))
           (text_or (text name_elem) "默认任务")
           (text_or (text description_elem) "默认描述")
           (text_or (text executor_elem) "data_collector")
           (parse_dependencies task_elem) (parse_parameters task_elem))).
Proof.
  intros Hid Hname Hd He. unfold parse_task, field_text.
  rewrite Hid, Hname, Hd, He.
  destruct (text id_elem) as [s|]; simpl.
  - destruct (s =? ""); simpl; [destruct (uuid4 w)|]; reflexivity.
  - destruct (uuid4 w); reflexivity.
Qed.

(** ** A chain of three subtasks *)

Lemma parse_task_declared (w : World) (task_elem : Element) (i : string)
    (deps : list string) :
  subtask_element task_elem i deps ->
  parse_task w task_elem
  = (w, Ok (new_Task i
              (field_or task_elem "name" "默认任务")
              (field_or task_elem "description" "默认描述")
              (field_or task_elem "executor_type" "data_collector")
              deps (parse_parameters task_elem))).
Proof.
  intros (Hall & Hid & Hne & Hdeps).
  unfold parse_task, field_text, field_or in *.
  destruct (elem_find task_elem "id") as [id_elem|];
    [|exfalso; apply Hne; symmetry; exact Hid].
  destruct (elem_find task_elem "name") as [name_elem|] eqn:Hname;
    [|exfalso; apply (Hall "name"); simpl; auto].
  destruct (elem_find task_elem "description") as [d_elem|] eqn:Hd;
    [|exfalso; apply (Hall "description"); simpl; auto].
  destruct (elem_find task_elem "executor_type") as [e_elem|] eqn:He;
    [|exfalso; apply (Hall "executor_type"); simpl; auto].
  rewrite Hdeps. unfold text_or in Hid.
  destruct (text id_elem) as [s|];
    [|exfalso; apply Hne; symmetry; exact Hid].
  destruct (String.eqb_spec s "") as [Hempty|_];
    [exfalso; apply Hne; symmetry; exact Hid|].
  rewrite Hid. reflexivity.
Qed.

(** C6, as the code has it.  A plan whose [<tasks>] element holds three
    subtasks, the first with id a and no dependencies, the second with id b
    depending on a, the third with id c depending on b (the ids pairwise
    distinct and none of them root), is parsed into the tasks root, a, b, c,
    however the plan is laid out.  The root is a pending task of the list
    without dependencies, so it is ready beside the subtask whose turn it is:
    the ready tasks are root and a at first, root and b once a is marked
    completed, root and c once b is, and the root alone once c is.  When the
    root is marked completed first, as the scheduler does in its first
    batch, they are a, then b, then c, then none. *)
Theorem chain_plan_ready_tasks (w : World) (xml_text query : string)
    (root tasks_elem ea eb ec : Element) (a b c : string) :
  fromstring (clean_xml_text xml_text) = Ok root ->
  elem_find root "tasks" = Some tasks_elem ->
  findall tasks_elem "task" = [ea; eb; ec] ->
  subtask_element ea a [] ->
  subtask_element eb b [a] ->
  subtask_element ec c [b] ->
  a <> "root" -> b <> "root" -> c <> "root" ->
  a <> b -> a <> c -> b <> c ->
  exists tree,
    _parse_task_tree_xml w xml_text query = (w, Ok tree) /\
    ids (tasks tree) = ["root"; a; b; c] /\
    map dependencies (tasks tree) = [[]; []; [a]; [b]] /\
    forall ra rb rc : option string,
      let mark i r t := update_task_status t i "completed" r in
      let tree_a := mark a ra tree in
      let tree_b := mark b rb tree_a in
      let tree_c := mark c rc tree_b in
      let tree0 := mark "root" None tree in
      let tree0_a := mark a ra tree0 in
      let tree0_b := mark b rb tree0_a in
      let tree0_c := mark c rc tree0_b in
      ids (get_ready_tasks tree) = ["root"; a] /\
      ids (get_ready_tasks tree_a) = ["root"; b] /\
      ids (get_ready_tasks tree_b) = ["root"; c] /\
      ids (get_ready_tasks tree_c) = ["root"] /\
      ids (get_ready_tasks tree0) = [a] /\
      ids (get_ready_tasks tree0_a) = [b] /\
      ids (get_ready_tasks tree0_b) = [c] /\
      ids (get_ready_tasks tree0_c) = [].
Proof.
  intros Hparse Htasks Hfind Ha Hb Hc Har Hbr Hcr Hab Hac Hbc.
  eexists. split.
  { unfold _parse_task_tree_xml, _parse_task_tree_xml_try.
    rewrite Hparse, Htasks, Hfind. cbn [parse_tasks].
    rewrite (parse_task_declared w ea a [] Ha). cbn [app].
    rewrite (parse_task_declared w eb b [a] Hb). cbn [app].
    rewrite (parse_task_declared w ec c [b] Hc). cbn [app].
    reflexivity. }
  split; [reflexivity|]. split; [reflexivity|].
  assert (Era : ("root" =? a) = false) by (apply String.eqb_neq; congruence).
  assert (Erb : ("root" =? b) = false) by (apply String.eqb_neq; congruence).
  assert (Erc : ("root" =? c) = false) by (apply String.eqb_neq; congruence).
  assert (Ear : (a =? "root") = false) by (apply String.eqb_neq; congruence).
  assert (Ebr : (b =? "root") = false) by (apply String.eqb_neq; congruence).
  assert (Ecr : (c =? "root") = false) by (apply String.eqb_neq; congruence).
  assert (Eab : (a =? b) = false) by (apply String.eqb_neq; congruence).
  assert (Eba : (b =? a) = false) by (apply String.eqb_neq; congruence).
  assert (Eac : (a =? c) = false) by (apply String.eqb_neq; congruence).
  assert (Eca : (c =? a) = false) by (apply String.eqb_neq; congruence).
  assert (Ebc : (b =? c) = false) by (apply String.eqb_neq; congruence).
  assert (Ecb : (c =? b) = false) by (apply String.eqb_neq; congruence).
  assert (Ecp : ("completed" =? "pending") = false) by reflexivity.
  assert (Epc : ("pending" =? "completed") = false) by reflexivity.
  intros ra rb rc. cbv zeta.
  unfold ids, get_ready_tasks, update_task_status, new_Task.
  repeat split;
    repeat (progress
              (cbn -[String.eqb];
               rewrite ?String.eqb_refl, ?Era, ?Erb, ?Erc, ?Ear, ?Ebr, ?Ecr,
                 ?Eab, ?Eba, ?Eac, ?Eca, ?Ebc, ?Ecb, ?Ecp, ?Epc));
    reflexivity.
Qed.

(** ** Results and statuses *)

Lemma parse_task_fresh (w w' : World) (task_elem : Element) (task : Task) :
  parse_task w task_elem = (w', Ok task) -> fresh task.
Proof.
  unfold parse_task.
  destruct (field_text task_elem "id") as [id_text|]; [|discriminate].
  destruct (match id_text with
            | Some s => if s =? "" then uuid4 w else (w, s)
            | None => uuid4 w
            end) as [w1 task_id].
  destruct (field_text task_elem "name"); [|discriminate].
  destruct (field_text task_elem "description"); [|discriminate].
  destruct (field_text task_elem "executor_type"); [|discriminate].
  intros [= _ <-]. split; reflexivity.
Qed.

Lemma parse_tasks_fresh (task_elems : list Element) :
  forall w w' acc ts,
    Forall fresh acc ->
    parse_tasks w task_elems acc = (w', Ok ts) -> Forall fresh ts.
Proof.
  induction task_elems as [|task_elem rest IH]; intros w w' acc ts Hacc; simpl.
  - intros [= _ <-]. assumption.
  - destruct (parse_task w task_elem) as [w1 [task|e]] eqn:Htask;
      [|discriminate].
    apply IH. apply Forall_app. split; [assumption|].
    constructor; [|constructor]. exact (parse_task_fresh _ _ _ _ Htask).
Qed.

Lemma default_root_fresh (query : string) :
  Forall fresh [new_Task "root" "投资分析" query "coordinator" [] []].
Proof. repeat constructor. Qed.

Lemma default_tree_fresh (query : string) :
  Forall fresh (tasks (_create_default_task_tree query)).
Proof. repeat constructor. Qed.

Lemma created_tree_fresh (w : World) (query : string) (tree : TaskTree) :
  snd (create_task_tree w query) = Ok tree -> Forall fresh (tasks tree).
Proof.
  unfold create_task_tree.
  destruct (chain_invoke w query) as [w1 [xml_text|e]]; simpl;
    [|intros [= <-]; apply default_tree_fresh].
  unfold _parse_task_tree_xml, _parse_task_tree_xml_try.
  destruct (fromstring (clean_xml_text xml_text)) as [root|e]; simpl;
    [|intros [= <-]; apply default_tree_fresh].
  destruct (elem_find root "tasks") as [tasks_elem|]; simpl.
  - destruct (parse_tasks w1 (findall tasks_elem "task")
                [new_Task "root" "投资分析" query "coordinator" [] []])
      as [w2 [ts|e]] eqn:Hts; simpl;
      [|intros [= <-]; apply default_tree_fresh].
    intros [= <-]. simpl.
    apply (parse_tasks_fresh _ _ _ _ _ (default_root_fresh query) Hts).
  - intros [= <-]. repeat constructor.
Qed.

Lemma update_loop_finished (ts : list Task) (task_id new_status : string)
    (new_result : option string) :
  new_status = "completed" \/ new_status = "failed" ->
  Forall result_implies_finished ts ->
  Forall result_implies_finished
         (update_loop ts task_id new_status new_result).
Proof.
  intros Hstatus. induction 1 as [|task rest Htask Hrest IH]; simpl;
    [constructor|].
  destruct (id task =? task_id); constructor; auto.
  intros _. exact Hstatus.
Qed.

Lemma reachable_finished (tree : TaskTree) :
  reachable tree -> Forall result_implies_finished (tasks tree).
Proof.
  induction 1 as [w query tree Hcreated|query w tree task Hreach IH].
  - apply created_tree_fresh in Hcreated.
    eapply Forall_impl; [|exact Hcreated].
    intros t [_ Hnone] Hset. contradiction.
  - destruct (run_task_update query w tree task) as (w' & r & ->). simpl.
    apply update_loop_finished; auto.
Qed.

Lemma update_loop_root_without_result (ts : list Task)
    (task_id new_status : string) (new_result : option string) :
  (task_id = "root" -> truthy new_result = false) ->
  Forall root_without_result ts ->
  Forall root_without_result (update_loop ts task_id new_status new_result).
Proof.
  intros Hroot. induction 1 as [|task rest Htask Hrest IH]; simpl;
    [constructor|].
  destruct (String.eqb_spec (id task) task_id) as [Heq|Hne];
    constructor; auto.
  intros Hid. simpl in *. rewrite Hroot by congruence. auto.
Qed.

Lemma reachable_root_without_result (tree : TaskTree) :
  reachable tree -> Forall root_without_result (tasks tree).
Proof.
  induction 1 as [w query tree Hcreated|query w tree task Hreach IH].
  - apply created_tree_fresh in Hcreated.
    eapply Forall_impl; [|exact Hcreated].
    intros t [_ Hnone] _. exact Hnone.
  - unfold run_task.
    destruct (String.eqb_spec (id task) "root") as [Heq|Hne].
    + apply update_loop_root_without_result; auto.
    + destruct (execute_task w task _) as [w' [answer|e]];
        apply update_loop_root_without_result; auto; contradiction.
Qed.

(** C5, as the code has it.  In every tree the program can hold, a task whose
    result is set has status completed or failed; so a pending task has no
    result.  The converse does not hold: a task with id root has no result,
    whatever its status, and the scheduler completes the root. *)
Theorem result_set_only_when_finished (tree : TaskTree) (t : Task) :
  reachable tree -> In t (tasks tree) ->
  (result t <> None -> status t = "completed" \/ status t = "failed") /\
  (status t = "pending" -> result t = None) /\
  (id t = "root" -> result t = None).
Proof.
  intros Hreach Hin.
  assert (Hroot : root_without_result t).
  { apply reachable_root_without_result in Hreach.
    rewrite Forall_forall in Hreach. auto. }
  enough (Hboth :
    (result t <> None -> status t = "completed" \/ status t = "failed") /\
    (status t = "pending" -> result t = None))
    by (destruct Hboth as [Hset Hpending];
        split; [exact Hset|split; [exact Hpending|exact Hroot]]).
  assert (Hfin : result_implies_finished t).
  { apply reachable_finished in Hreach.
    rewrite Forall_forall in Hreach. auto. }
  split; [exact Hfin|].
  intros Hpending. destruct (result t) as [r|] eqn:Hr; [|reflexivity].
  exfalso.
  assert (Hset : result t <> None) by (rewrite Hr; discriminate).
  destruct (Hfin Hset) as [H|H]; rewrite Hpending in H; discriminate.
Qed.

(** ** A failing agent *)

(** C3, at the failing inputs.  When the agent of a task's executor raises,
    [BaseExecutor.execute] returns the text of the failure, and the scheduler
    marks the task completed with that text for its result: the task is not
    marked failed. *)
Theorem agent_failure_marked_completed (query : string) (w w' : World)
    (tree : TaskTree) (task : Task) (e : Exn) :
  id task <> "root" ->
  agent_invoke w (get_executor (executor_type task)) task = (w', Raise e) ->
  run_task query (w, tree) task
  = (w', update_task_status tree (id task) "completed"
           (Some ("执行失败: " ++ str e)%string)).
Proof.
  intros Hroot Hraise. unfold run_task.
  destruct (String.eqb_spec (id task) "root") as [Heq|_]; [contradiction|].
  unfold execute_task, execute. rewrite Hraise. reflexivity.
Qed.

(** ** A repeated id *)

(** The trees [sample_repeated_id_tree] turns into: the third task is as it
    was, pending and without dependencies. *)
Definition repeated_id_shape (tree : TaskTree) : Prop :=
  exists first second,
    tasks tree
    = [first; second;
       new_Task "task_1" "news" "collect news" "news_analyst" [] []] /\
    id first = "root" /\ id second = "task_1".

Lemma repeated_id_shape_ready (tree : TaskTree) :
  repeated_id_shape tree ->
  get_ready_tasks tree <> [] /\
  forall t, In t (get_ready_tasks tree) -> id t = "root" \/ id t = "task_1".
Proof.
  intros (first & second & Hts & Hfirst & Hsecond). split.
  - intros Hempty.
    assert (Hin : In (new_Task "task_1" "news" "collect news" "news_analyst"
                        [] []) (get_ready_tasks tree)).
    { apply in_get_ready_tasks. rewrite Hts. split; [simpl; auto|reflexivity]. }
    rewrite Hempty in Hin. destruct Hin.
  - intros t Hin. apply in_get_ready_tasks in Hin as [Hin _].
    rewrite Hts in Hin. simpl in Hin.
    destruct Hin as [<-|[<-|[<-|[]]]]; auto.
Qed.

Lemma run_task_repeated_id_shape (query : string) (w : World)
    (tree : TaskTree) (task : Task) :
  repeated_id_shape tree ->
  id task = "root" \/ id task = "task_1" ->
  repeated_id_shape (snd (run_task query (w, tree) task)).
Proof.
  intros (first & second & Hts & Hfirst & Hsecond) Hid.
  destruct (run_task_update query w tree task) as (w' & r & ->).
  unfold repeated_id_shape, update_task_status. cbn [snd tasks].
  rewrite Hts. cbn [update_loop]. destruct Hid as [-> | ->].
  - rewrite Hfirst. cbn [String.eqb Ascii.eqb Bool.eqb].
    eexists _, _. split; [reflexivity|]. auto.
  - rewrite Hfirst, Hsecond. cbn [String.eqb Ascii.eqb Bool.eqb].
    eexists _, _. split; [reflexivity|]. auto.
Qed.

Lemma fold_run_task_repeated_id_shape (query : string) (batch : list Task) :
  forall st,
    (forall t, In t batch -> id t = "root" \/ id t = "task_1") ->
    repeated_id_shape (snd st) ->
    repeated_id_shape (snd (fold_left (run_task query) batch st)).
Proof.
  induction batch as [|task batch IH]; intros [w tree] Hids Hshape; simpl;
    [assumption|].
  apply IH; [intros t Ht; apply Hids; simpl; auto|].
  apply run_task_repeated_id_shape; [assumption|]. apply Hids. simpl. auto.
Qed.

Lemma repeated_id_shape_never_exits (fuel : nat) (query : string) :
  forall w tree,
    repeated_id_shape tree -> execution_loop fuel query w tree = None.
Proof.
  induction fuel as [|fuel IH]; intros w tree Hshape; simpl; [reflexivity|].
  destruct (repeated_id_shape_ready tree Hshape) as [Hne Hids].
  destruct (get_ready_tasks tree) as [|task batch] eqn:Hready;
    [contradiction|].
  destruct (run_batch query w tree (task :: batch)) as [w1 tree1] eqn:Hbatch.
  apply IH. change tree1 with (snd (w1, tree1)). rewrite <- Hbatch.
  apply (fold_run_task_repeated_id_shape query (task :: batch) (w, tree));
    assumption.
Qed.

(** C2, at the failing input.  On a tree with two tasks of one id and no
    dependencies, the loop of [execution_node] never exits, whatever the
    executors answer: every update by that id lands on the first of the two,
    and the second stays pending and ready. *)
Theorem repeated_id_loop_never_exits (fuel : nat) (query : string) (w : World) :
  execution_loop fuel query w sample_repeated_id_tree = None.
Proof.
  apply repeated_id_shape_never_exits.
  eexists _, _. split; [reflexivity|]. split; reflexivity.
Qed.

(** ** Distinct ids: the loop exits *)

Lemma ids_update_loop (ts : list Task) (task_id new_status : string)
    (new_result : option string) :
  ids (update_loop ts task_id new_status new_result) = ids ts.
Proof.
  unfold ids. induction ts as [|task rest IH]; simpl; [reflexivity|].
  destruct (id task =? task_id); simpl; [reflexivity|]. now rewrite IH.
Qed.

Lemma ids_run_task (query : string) (st : World * TaskTree) (task : Task) :
  ids (tasks (snd (run_task query st task))) = ids (tasks (snd st)).
Proof.
  destruct st as [w tree].
  destruct (run_task_update query w tree task) as (w' & r & ->).
  apply ids_update_loop.
Qed.

Lemma ids_fold_run_task (query : string) (batch : list Task) :
  forall st,
    ids (tasks (snd (fold_left (run_task query) batch st)))
    = ids (tasks (snd st)).
Proof.
  induction batch as [|task batch IH]; intros st; cbn [fold_left];
    [reflexivity|].
  rewrite IH. apply ids_run_task.
Qed.

Lemma pending_count_update_le (ts : list Task) (task_id : string)
    (new_result : option string) :
  pending_count (update_loop ts task_id "completed" new_result)
  <= pending_count ts.
Proof.
  unfold pending_count. induction ts as [|task rest IH]; simpl; [lia|].
  destruct (id task =? task_id); simpl.
  - destruct (status task =? "pending"); simpl; lia.
  - destruct (status task =? "pending"); simpl; lia.
Qed.

Lemma pending_count_update_lt (ts : list Task) (task : Task)
    (new_result : option string) :
  NoDup (ids ts) -> In task ts -> status task = "pending" ->
  pending_count (update_loop ts (id task) "completed" new_result)
  < pending_count ts.
Proof.
  unfold pending_count.
  induction ts as [|head rest IH]; intros Hnodup Hin Hpending; [destruct Hin|].
  simpl in Hnodup. apply NoDup_cons_iff in Hnodup as [Hfresh Hnodup].
  simpl. destruct (String.eqb_spec (id head) (id task)) as [Heq|Hne].
  - assert (head = task) as ->.
    { destruct Hin as [Hhead|Hrest]; [assumption|]. exfalso. apply Hfresh.
      rewrite Heq. unfold ids. apply in_map. assumption. }
    simpl. rewrite Hpending. simpl. lia.
  - destruct Hin as [Hhead|Hrest]; [congruence|].
    specialize (IH Hnodup Hrest Hpending).
    simpl. destruct (status head =? "pending"); simpl; lia.
Qed.

Lemma pending_count_fold_le (query : string) (batch : list Task) :
  forall st,
    pending_count (tasks (snd (fold_left (run_task query) batch st)))
    <= pending_count (tasks (snd st)).
Proof.
  induction batch as [|task batch IH]; intros [w tree]; cbn [fold_left];
    [lia|].
  etransitivity; [apply IH|].
  destruct (run_task_update query w tree task) as (w' & r & ->).
  apply pending_count_update_le.
Qed.

Lemma pending_count_batch_lt (query : string) (w : World) (tree : TaskTree)
    (task : Task) (batch : list Task) :
  NoDup (ids (tasks tree)) ->
  get_ready_tasks tree = task :: batch ->
  pending_count (tasks (snd (run_batch query w tree (task :: batch))))
  < pending_count (tasks tree).
Proof.
  intros Hnodup Hready.
  assert (Hin : In task (get_ready_tasks tree)) by (rewrite Hready; simpl; auto).
  apply in_get_ready_tasks in Hin as [Hin Htest].
  apply ready_test_iff in Htest as [Hpending _].
  unfold run_batch. cbn [fold_left].
  eapply Nat.le_lt_trans; [apply pending_count_fold_le|].
  destruct (run_task_update query w tree task) as (w' & r & ->).
  apply pending_count_update_lt; assumption.
Qed.

(** X1.  With pairwise distinct ids the loop of [execution_node] exits,
    after at most one pass per pending task, whatever the executors answer;
    it exits on a tree without ready tasks and with the topology it started
    from. *)
Theorem execution_loop_exits (query : string) (fuel : nat) :
  forall (w : World) (tree : TaskTree),
    NoDup (ids (tasks tree)) ->
    pending_count (tasks tree) < fuel ->
    exists w' tree',
      execution_loop fuel query w tree = Some (w', tree') /\
      get_ready_tasks tree' = [] /\
      map topology (tasks tree') = map topology (tasks tree).
Proof.
  induction fuel as [|fuel IH]; intros w tree Hnodup Hfuel; [lia|].
  simpl. destruct (get_ready_tasks tree) as [|task batch] eqn:Hready.
  - exists w, tree. auto.
  - pose proof (pending_count_batch_lt query w tree task batch Hnodup Hready)
      as Hlt.
    pose proof (fold_run_task_topology query (task :: batch) (w, tree))
      as Htopo.
    pose proof (ids_fold_run_task query (task :: batch) (w, tree)) as Hids.
    fold (run_batch query w tree (task :: batch)) in Htopo, Hids.
    destruct (run_batch query w tree (task :: batch)) as [w1 tree1].
    cbn [snd] in Hlt, Hids, Htopo.
    destruct (IH w1 tree1) as (w' & tree' & Hloop & Hempty & Htopo');
      [rewrite Hids; assumption | lia |].
    exists w', tree'. repeat split; try assumption.
    rewrite Htopo'. exact Htopo.
Qed.

(** ** Distinct ids: a batch completes every ready task *)

Lemma update_loop_in (ts : list Task) (task_id new_status : string)
    (new_result : option string) (t' : Task) :
  In t' (update_loop ts task_id new_status new_result) ->
  In t' ts \/
  exists t, In t ts /\ id t = task_id /\
            t' = assign_status t new_status new_result.
Proof.
  induction ts as [|task rest IH]; simpl; [intros []|].
  destruct (String.eqb_spec (id task) task_id) as [Heq|Hne]; simpl.
  - intros [<-|Hin]; [right; exists task|left]; auto.
  - intros [<-|Hin]; [left; auto|].
    destruct (IH Hin) as [Hold|(t & Ht & Hid & Hnew)]; [left; auto|].
    right. exists t. auto.
Qed.

Lemma update_loop_completes (ts : list Task) (task_id : string)
    (new_result : option string) (t' : Task) :
  NoDup (ids ts) ->
  In t' (update_loop ts task_id "completed" new_result) ->
  id t' = task_id -> status t' = "completed".
Proof.
  induction ts as [|task rest IH]; simpl; intros Hnodup; [intros []|].
  apply NoDup_cons_iff in Hnodup as [Hfresh Hnodup].
  destruct (String.eqb_spec (id task) task_id) as [Heq|Hne]; simpl.
  - intros [<-|Hin] Hid; [reflexivity|].
    exfalso. apply Hfresh. rewrite Heq, <- Hid. unfold ids.
    apply in_map. assumption.
  - intros [<-|Hin] Hid; [contradiction|]. apply IH; assumption.
Qed.

Lemma run_task_keeps_completed (query : string) (w : World) (tree : TaskTree)
    (task : Task) (i : string) :
  (forall t, In t (tasks tree) -> id t = i -> status t = "completed") ->
  forall t', In t' (tasks (snd (run_task query (w, tree) task))) ->
             id t' = i -> status t' = "completed".
Proof.
  intros Hdone t'.
  destruct (run_task_update query w tree task) as (w' & r & ->).
  cbn [snd update_task_status tasks]. intros Hin Hid.
  apply update_loop_in in Hin as [Hold|(t & Ht & _ & ->)]; [auto|reflexivity].
Qed.

Lemma fold_run_task_keeps_completed (query : string) (batch : list Task)
    (i : string) :
  forall st,
    (forall t, In t (tasks (snd st)) -> id t = i -> status t = "completed") ->
    forall t', In t' (tasks (snd (fold_left (run_task query) batch st))) ->
               id t' = i -> status t' = "completed".
Proof.
  induction batch as [|task batch IH]; intros [w tree] Hdone;
    cbn [fold_left]; [exact Hdone|].
  apply IH. destruct (run_task query (w, tree) task) as [w1 tree1] eqn:Hrun.
  change tree1 with (snd (w1, tree1)). rewrite <- Hrun.
  apply run_task_keeps_completed. exact Hdone.
Qed.

Lemma fold_run_task_completes (query : string) (batch : list Task) :
  forall st,
    NoDup (ids (tasks (snd st))) ->
    forall t', In t' (tasks (snd (fold_left (run_task query) batch st))) ->
               In (id t') (ids batch) -> status t' = "completed".
Proof.
  induction batch as [|task batch IH]; intros [w tree] Hnodup t';
    cbn [fold_left]; [intros _ []|].
  intros Hin [Hhead|Hrest].
  - apply (fold_run_task_keeps_completed query batch (id t')
             (run_task query (w, tree) task)); [|assumption|reflexivity].
    destruct (run_task_update query w tree task) as (w' & r & ->).
    cbn [snd update_task_status tasks]. intros t Ht Hid.
    apply (update_loop_completes (tasks tree) (id task) r t); try assumption.
    congruence.
  - apply (IH (run_task query (w, tree) task)); try assumption.
    rewrite ids_run_task. assumption.
Qed.

(** X2.  With pairwise distinct ids, one pass of the loop leaves every task
    that was ready completed, and fewer tasks pending than before. *)
Theorem batch_completes_ready_tasks (query : string) (w : World)
    (tree : TaskTree) :
  NoDup (ids (tasks tree)) ->
  get_ready_tasks tree <> [] ->
  let tree' := snd (run_batch query w tree (get_ready_tasks tree)) in
  (forall t', In t' (tasks tree') ->
              In (id t') (ids (get_ready_tasks tree)) ->
              status t' = "completed") /\
  pending_count (tasks tree') < pending_count (tasks tree).
Proof.
  intros Hnodup Hne. cbv zeta. split.
  - apply (fold_run_task_completes query (get_ready_tasks tree) (w, tree)).
    assumption.
  - destruct (get_ready_tasks tree) as [|task batch] eqn:Hready;
      [contradiction|].
    apply pending_count_batch_lt; assumption.
Qed.


(** * Further properties *)

(** ** Dispatch *)

(** X4.  [execute_task] never raises: it returns the agent's answer, or the
    failure text when the agent raises.  The executor consulted is a
    registered one: the task's own kind when it is registered, the data
    collector otherwise. *)
Theorem execute_task_total (w : World) (task : Task)
    (context : option Context) :
  In (get_executor (executor_type task)) executors /\
  (In (executor_type task) executors ->
   get_executor (executor_type task) = executor_type task) /\
  (~ In (executor_type task) executors ->
   get_executor (executor_type task) = "data_collector") /\
  (forall w' answer,
      agent_invoke w (get_executor (executor_type task)) task = (w', Ok answer)
      -> execute_task w task context = (w', Ok answer)) /\
  (forall w' e,
      agent_invoke w (get_executor (executor_type task)) task = (w', Raise e)
      -> execute_task w task context
         = (w', Ok ("执行失败: " ++ str e)%string)).
Proof.
  assert (Hreg : existsb (String.eqb (executor_type task)) executors = true
                 <-> In (executor_type task) executors).
  { rewrite existsb_exists. split.
    - intros (x & Hin & Heq). apply String.eqb_eq in Heq. now subst.
    - intros Hin. exists (executor_type task). split; [assumption|].
      apply String.eqb_refl. }
  unfold get_executor.
  destruct (existsb (String.eqb (executor_type task)) executors) eqn:Hex.
  - repeat split.
    + now apply Hreg.
    + intros Hno. exfalso. apply Hno. now apply Hreg.
    + intros w' answer Hagent. unfold execute_task, execute, get_executor.
      rewrite Hex, Hagent. reflexivity.
    + intros w' e Hagent. unfold execute_task, execute, get_executor.
      rewrite Hex, Hagent. reflexivity.
  - repeat split.
    + simpl. auto.
    + intros Hin. apply Hreg in Hin. discriminate.
    + intros w' answer Hagent. unfold execute_task, execute, get_executor.
      rewrite Hex, Hagent. reflexivity.
    + intros w' e Hagent. unfold execute_task, execute, get_executor.
      rewrite Hex, Hagent. reflexivity.
Qed.

(** ** Statuses the scheduler produces *)

Lemma update_loop_pending_or_completed (ts : list Task) (task_id : string)
    (new_result : option string) :
  Forall (fun t => status t = "pending" \/ status t = "completed") ts ->
  Forall (fun t => status t = "pending" \/ status t = "completed")
         (update_loop ts task_id "completed" new_result).
Proof.
  induction 1 as [|task rest Htask Hrest IH]; simpl; [constructor|].
  destruct (id task =? task_id); constructor; auto.
Qed.

(** X5.  The scheduler never marks a task failed: in every tree the program
    can hold, a task is pending or completed. *)
Theorem scheduler_never_marks_failed (tree : TaskTree) (t : Task) :
  reachable tree -> In t (tasks tree) ->
  status t = "pending" \/ status t = "completed".
Proof.
  intros Hreach. revert t. apply Forall_forall.
  induction Hreach as [w query tree Hcreated|query w tree task Hreach IH].
  - apply created_tree_fresh in Hcreated.
    eapply Forall_impl; [|exact Hcreated]. intros t [Hpending _]. auto.
  - destruct (run_task_update query w tree task) as (w' & r & ->).
    apply update_loop_pending_or_completed. exact IH.
Qed.

(** ** Updates compose *)

Lemma update_loop_commute (ts : list Task) (i j s s' : string)
    (r r' : option string) :
  i <> j ->
  update_loop (update_loop ts i s r) j s' r'
  = update_loop (update_loop ts j s' r') i s r.
Proof.
  intros Hij. induction ts as [|task rest IH]; simpl; [reflexivity|].
  destruct (String.eqb_spec (id task) i) as [Hi|Hi];
    destruct (String.eqb_spec (id task) j) as [Hj|Hj]; simpl.
  - congruence.
  - destruct (String.eqb_spec (id task) j); [contradiction|].
    destruct (String.eqb_spec (id task) i); [reflexivity|contradiction].
  - destruct (String.eqb_spec (id task) j); [|contradiction].
    destruct (String.eqb_spec (id task) i); [contradiction|reflexivity].
  - destruct (String.eqb_spec (id task) j); [contradiction|].
    destruct (String.eqb_spec (id task) i); [contradiction|].
    now rewrite IH.
Qed.

Lemma update_loop_collapse (ts : list Task) (i s1 s2 : string)
    (r1 r2 : option string) :
  update_loop (update_loop ts i s1 r1) i s2 r2
  = update_loop ts i s2 (if truthy r2 then r2 else r1).
Proof.
  induction ts as [|task rest IH]; simpl; [reflexivity|].
  destruct (id task =? i) eqn:Hi; simpl; rewrite Hi.
  - f_equal. unfold assign_status; simpl.
    destruct (truthy r2) eqn:H2; [rewrite H2; reflexivity|].
    destruct (truthy r1); reflexivity.
  - now rewrite IH.
Qed.

(** X6.  Updates of two different ids commute.  Two updates of one id amount
    to one: the later status, and the later result unless it is falsy, in
    which case the earlier result. *)
Theorem update_task_status_compose (self : TaskTree) (i j s s' : string)
    (r r' : option string) :
  (i <> j ->
   update_task_status (update_task_status self i s r) j s' r'
   = update_task_status (update_task_status self j s' r') i s r) /\
  update_task_status (update_task_status self i s r) i s' r'
  = update_task_status self i s' (if truthy r' then r' else r).
Proof.
  unfold update_task_status; simpl. split.
  - intros Hij. now rewrite update_loop_commute.
  - now rewrite update_loop_collapse.
Qed.

(** ** What the loop leaves behind *)

Lemma moved_refl (t : Task) : moved t t.
Proof. split; auto. Qed.

Lemma moved_trans (t1 t2 t3 : Task) : moved t1 t2 -> moved t2 t3 -> moved t1 t3.
Proof.
  intros [Htopo12 H12] [Htopo23 H23]. split; [congruence|].
  destruct H23 as [[Hs Hr]|Hdone]; [|auto].
  destruct H12 as [[Hs' Hr']|Hdone']; [left; split|right]; congruence.
Qed.

Lemma Forall2_moved_refl (ts : list Task) : Forall2 moved ts ts.
Proof. induction ts; constructor; auto using moved_refl. Qed.

Lemma Forall2_moved_trans (l1 l2 l3 : list Task) :
  Forall2 moved l1 l2 -> Forall2 moved l2 l3 -> Forall2 moved l1 l3.
Proof.
  intros H12. revert l3. induction H12 as [|a b l1 l2 Hab H12 IH];
    intros l3 H23; inversion H23; subst; constructor;
    eauto using moved_trans.
Qed.

Lemma update_loop_moved (ts : list Task) (task_id : string)
    (new_result : option string) :
  Forall2 moved ts (update_loop ts task_id "completed" new_result).
Proof.
  induction ts as [|task rest IH]; simpl; [constructor|].
  destruct (id task =? task_id); constructor;
    auto using moved_refl, Forall2_moved_refl.
  split; [reflexivity|right; reflexivity].
Qed.

Lemma fold_run_task_moved (query : string) (batch : list Task) :
  forall st,
    Forall2 moved (tasks (snd st))
            (tasks (snd (fold_left (run_task query) batch st))).
Proof.
  induction batch as [|task batch IH]; intros [w tree]; cbn [fold_left];
    [apply Forall2_moved_refl|].
  eapply Forall2_moved_trans; [|apply IH].
  destruct (run_task_update query w tree task) as (w' & r & ->).
  apply update_loop_moved.
Qed.

Lemma execution_loop_moved (fuel : nat) (query : string) :
  forall w tree w' tree',
    execution_loop fuel query w tree = Some (w', tree') ->
    Forall2 moved (tasks tree) (tasks tree') /\ get_ready_tasks tree' = [].
Proof.
  induction fuel as [|fuel IH]; intros w tree w' tree'; simpl;
    [discriminate|].
  destruct (get_ready_tasks tree) as [|task batch] eqn:Hready.
  - intros [= <- <-]. split; [apply Forall2_moved_refl|assumption].
  - pose proof (fold_run_task_moved query (task :: batch) (w, tree)) as Hmoved.
    fold (run_batch query w tree (task :: batch)) in Hmoved.
    destruct (run_batch query w tree (task :: batch)) as [w1 tree1].
    intros Hloop. destruct (IH _ _ _ _ Hloop) as [Hrest Hempty].
    split; [|assumption].
    eapply Forall2_moved_trans; [exact Hmoved|exact Hrest].
Qed.

Lemma forallb_false_exists {A : Type} (f : A -> bool) (l : list A) :
  forallb f l = false -> exists x, In x l /\ f x = false.
Proof.
  induction l as [|a l IH]; simpl; [discriminate|].
  destruct (f a) eqn:Ha; simpl.
  - intros Hl. destruct (IH Hl) as (x & Hin & Hx). eauto.
  - intros _. eauto.
Qed.

Lemma not_ready_blocked (ts : list Task) (t : Task) :
  filter (ready_test ts) ts = [] -> In t ts -> status t = "pending" ->
  exists d, In d (dependencies t) /\ dep_completed ts d = false.
Proof.
  intros Hempty Hin Hpending.
  destruct (ready_test ts t) eqn:Htest.
  - assert (Hready : In t (filter (ready_test ts) ts))
      by (apply filter_In; auto).
    rewrite Hempty in Hready. destruct Hready.
  - unfold ready_test in Htest. rewrite Hpending in Htest. simpl in Htest.
    apply forallb_false_exists. exact Htest.
Qed.

(** X7.  When the loop of [execution_node] exits, each task is as it was or
    completed, and each task still pending is blocked: one of its
    dependencies is the id of no completed task. *)
Theorem loop_exit_leaves_blocked_tasks (fuel : nat) (query : string)
    (w w' : World) (tree tree' : TaskTree) :
  execution_loop fuel query w tree = Some (w', tree') ->
  Forall2 moved (tasks tree) (tasks tree') /\
  forall t, In t (tasks tree') -> status t = "pending" ->
            exists d, In d (dependencies t) /\
                      dep_completed (tasks tree') d = false.
Proof.
  intros Hloop. destruct (execution_loop_moved _ _ _ _ _ _ Hloop)
    as [Hmoved Hempty].
  split; [exact Hmoved|]. intros t Hin Hpending.
  apply not_ready_blocked; try assumption.
  rewrite <- get_ready_tasks_filter. exact Hempty.
Qed.

(** ** Dependencies are completed first *)

Lemma in_update_loop (ts : list Task) (task_id new_status : string)
    (new_result : option string) (t : Task) :
  In t ts ->
  In t (update_loop ts task_id new_status new_result) \/
  (id t = task_id /\
   In (assign_status t new_status new_result)
      (update_loop ts task_id new_status new_result)).
Proof.
  induction ts as [|task rest IH]; simpl; [intros []|].
  destruct (String.eqb_spec (id task) task_id) as [Heq|Hne]; simpl.
  - intros [<-|Hin]; auto.
  - intros [<-|Hin]; [auto|]. destruct (IH Hin) as [H|[H1 H2]]; auto.
Qed.

Lemma dep_completed_update (ts : list Task) (task_id d : string)
    (new_result : option string) :
  dep_completed ts d = true ->
  dep_completed (update_loop ts task_id "completed" new_result) d = true.
Proof.
  rewrite !dep_completed_iff. intros (t & Hin & Hid & Hdone).
  destruct (in_update_loop ts task_id "completed" new_result t Hin)
    as [Hsame|[_ Hnew]].
  - exists t. auto.
  - exists (assign_status t "completed" new_result). auto.
Qed.

Lemma deps_closed_iff (ts : list Task) :
  deps_closed ts = true <->
  forall t, In t ts -> status t = "completed" ->
            forallb (dep_completed ts) (dependencies t) = true.
Proof.
  unfold deps_closed. rewrite forallb_forall. split.
  - intros Hall t Hin Hdone. specialize (Hall t Hin).
    rewrite Hdone in Hall. exact Hall.
  - intros Hall t Hin. destruct (String.eqb_spec (status t) "completed")
      as [Hdone|_]; simpl; auto.
Qed.

Lemma forallb_dep_completed_update (ts : list Task) (task_id : string)
    (new_result : option string) (deps : list string) :
  forallb (dep_completed ts) deps = true ->
  forallb (dep_completed (update_loop ts task_id "completed" new_result)) deps
  = true.
Proof.
  rewrite !forallb_forall. intros Hall d Hd.
  apply dep_completed_update. auto.
Qed.

(** Completing the tasks of an id keeps the tree closed when every task of
    that id has its dependencies completed. *)
Lemma update_loop_deps_closed (ts : list Task) (task_id : string)
    (new_result : option string) :
  deps_closed ts = true ->
  (forall t, In t ts -> id t = task_id ->
             forallb (dep_completed ts) (dependencies t) = true) ->
  deps_closed (update_loop ts task_id "completed" new_result) = true.
Proof.
  rewrite !deps_closed_iff. intros Hclosed Hdeps t' Hin Hdone.
  apply update_loop_in in Hin as [Hold|(t & Ht & Hid & ->)].
  - apply forallb_dep_completed_update. auto.
  - apply forallb_dep_completed_update. simpl. auto.
Qed.

Lemma fold_run_task_deps_closed (query : string) (batch : list Task) :
  forall st,
    deps_closed (tasks (snd st)) = true ->
    (forall b t, In b batch -> In t (tasks (snd st)) -> id t = id b ->
                 forallb (dep_completed (tasks (snd st))) (dependencies t)
                 = true) ->
    deps_closed (tasks (snd (fold_left (run_task query) batch st))) = true.
Proof.
  induction batch as [|task batch IH]; intros [w tree] Hclosed Hdeps;
    cbn [fold_left]; [exact Hclosed|].
  destruct (run_task_update query w tree task) as (w' & r & Hrun).
  apply IH; rewrite Hrun; cbn [snd update_task_status tasks].
  - apply update_loop_deps_closed; [exact Hclosed|].
    intros t Hin Hid. apply (Hdeps task t); simpl; auto.
  - intros b t' Hb Hin Hid.
    apply update_loop_in in Hin as [Hold|(t & Ht & _ & ->)].
    + apply forallb_dep_completed_update.
      apply (Hdeps b t'); simpl; auto.
    + apply forallb_dep_completed_update.
      apply (Hdeps b t); simpl; auto.
Qed.

Lemma NoDup_ids_same_task (ts : list Task) (t b : Task) :
  NoDup (ids ts) -> In t ts -> In b ts -> id t = id b -> t = b.
Proof.
  induction ts as [|head rest IH]; simpl; intros Hnodup Ht Hb Hid;
    [destruct Ht|].
  apply NoDup_cons_iff in Hnodup as [Hfresh Hnodup].
  destruct Ht as [<-|Ht]; destruct Hb as [<-|Hb]; auto.
  - exfalso. apply Hfresh. rewrite Hid. unfold ids. now apply in_map.
  - exfalso. apply Hfresh. rewrite <- Hid. unfold ids. now apply in_map.
Qed.

Lemma run_batch_deps_closed (query : string) (w : World) (tree : TaskTree) :
  NoDup (ids (tasks tree)) -> deps_closed (tasks tree) = true ->
  deps_closed
    (tasks (snd (run_batch query w tree (get_ready_tasks tree)))) = true.
Proof.
  intros Hnodup Hclosed.
  apply (fold_run_task_deps_closed query (get_ready_tasks tree) (w, tree));
    [exact Hclosed|].
  cbn [snd]. intros b t Hb Hin Hid.
  apply in_get_ready_tasks in Hb as [Hb Htest].
  rewrite (NoDup_ids_same_task _ _ _ Hnodup Hin Hb Hid).
  unfold ready_test in Htest. apply andb_true_iff in Htest.
  exact (proj2 Htest).
Qed.

Lemma execution_loop_deps_closed (fuel : nat) (query : string) :
  forall w tree w' tree',
    NoDup (ids (tasks tree)) -> deps_closed (tasks tree) = true ->
    execution_loop fuel query w tree = Some (w', tree') ->
    deps_closed (tasks tree') = true.
Proof.
  induction fuel as [|fuel IH]; intros w tree w' tree' Hnodup Hclosed; simpl;
    [discriminate|].
  destruct (get_ready_tasks tree) as [|task batch] eqn:Hready.
  - intros [= <- <-]. exact Hclosed.
  - pose proof (run_batch_deps_closed query w tree Hnodup Hclosed) as Hnext.
    pose proof (ids_fold_run_task query (task :: batch) (w, tree)) as Hids.
    rewrite Hready in Hnext.
    fold (run_batch query w tree (task :: batch)) in Hids.
    destruct (run_batch query w tree (task :: batch)) as [w1 tree1].
    cbn [snd] in Hnext, Hids. apply IH; [rewrite Hids|]; assumption.
Qed.

(** X8.  With pairwise distinct ids the scheduler completes no task before
    its dependencies: if every completed task of the tree has all its
    dependency ids carried by completed tasks, the same holds after a pass
    of the loop and when the loop exits.  Completing a task never takes a
    dependency away from another. *)
Theorem dependencies_completed_first (tree : TaskTree) :
  NoDup (ids (tasks tree)) -> deps_closed (tasks tree) = true ->
  (forall query w,
      deps_closed
        (tasks (snd (run_batch query w tree (get_ready_tasks tree)))) = true) /\
  (forall fuel query w w' tree',
      execution_loop fuel query w tree = Some (w', tree') ->
      deps_closed (tasks tree') = true) /\
  (forall task_id r d,
      dep_completed (tasks tree) d = true ->
      dep_completed
        (tasks (update_task_status tree task_id "completed" r)) d = true).
Proof.
  intros Hnodup Hclosed. repeat split.
  - intros query w. now apply run_batch_deps_closed.
  - intros fuel query w w' tree'. now apply execution_loop_deps_closed.
  - intros task_id r d. apply dep_completed_update.
Qed.

(** ** Plans in dependency order are completed *)

Lemma execution_loop_returns (query : string) (fuel : nat) :
  forall (w : World) (tree : TaskTree),
    NoDup (ids (tasks tree)) ->
    pending_count (tasks tree) < fuel ->
    exists w' tree', execution_loop fuel query w tree = Some (w', tree').
Proof.
  induction fuel as [|fuel IH]; intros w tree Hnodup Hfuel; [lia|].
  simpl. destruct (get_ready_tasks tree) as [|task batch] eqn:Hready;
    [eauto|].
  pose proof (pending_count_batch_lt query w tree task batch Hnodup Hready)
    as Hlt.
  pose proof (ids_fold_run_task query (task :: batch) (w, tree)) as Hids.
  fold (run_batch query w tree (task :: batch)) in Hids.
  destruct (run_batch query w tree (task :: batch)) as [w1 tree1].
  cbn [snd] in Hlt, Hids. apply IH; [rewrite Hids; assumption|lia].
Qed.

Lemma pending_count_le_length (ts : list Task) :
  pending_count ts <= List.length ts.
Proof. unfold pending_count. apply filter_length_le. Qed.

Lemma deps_earlier_moved (ts ts' : list Task) :
  Forall2 moved ts ts' ->
  forall seen, deps_earlier seen ts' = deps_earlier seen ts.
Proof.
  induction 1 as [|t t' ts ts' [Htopo _] _ IH]; intros seen; simpl;
    [reflexivity|].
  unfold topology in Htopo. injection Htopo as Hid _ _ _ Hdeps _.
  rewrite Hid, Hdeps, IH. reflexivity.
Qed.

Lemma ordered_stuck_completed (all : list Task) :
  filter (ready_test all) all = [] ->
  forall rest seen,
    (forall d, In d seen -> dep_completed all d = true) ->
    (forall t, In t rest -> In t all) ->
    Forall (fun t => status t = "pending" \/ status t = "completed") rest ->
    deps_earlier seen rest = true ->
    Forall (fun t => status t = "completed") rest.
Proof.
  intros Hstuck. induction rest as [|t rest IH];
    intros seen Hseen Hsub Hstatus Hearlier; [constructor|].
  apply Forall_cons_iff in Hstatus as [Ht Hstatus].
  simpl in Hearlier. apply andb_true_iff in Hearlier as [Hdeps Hearlier].
  assert (Hready : forallb (dep_completed all) (dependencies t) = true).
  { rewrite forallb_forall in *. intros d Hd. apply Hseen.
    specialize (Hdeps d Hd). apply existsb_exists in Hdeps as (x & Hx & Heq).
    apply String.eqb_eq in Heq. now subst. }
  assert (Hdone : status t = "completed").
  { destruct Ht as [Hpending|Hdone]; [|exact Hdone]. exfalso.
    assert (Hin : In t (filter (ready_test all) all)).
    { apply filter_In. split; [apply Hsub; simpl; auto|].
      unfold ready_test. rewrite Hpending, Hready. reflexivity. }
    rewrite Hstuck in Hin. destruct Hin. }
  constructor; [exact Hdone|].
  apply (IH (id t :: seen)); try assumption.
  - intros d [<-|Hd]; [|auto]. apply dep_completed_iff.
    exists t. repeat split; [apply Hsub; simpl; auto|exact Hdone].
  - intros t0 Ht0. apply Hsub. simpl. auto.
Qed.

Lemma moved_pending_or_completed (ts ts' : list Task) :
  Forall2 moved ts ts' ->
  Forall (fun t => status t = "pending" \/ status t = "completed") ts ->
  Forall (fun t => status t = "pending" \/ status t = "completed") ts'.
Proof.
  induction 1 as [|t t' ts ts' [_ Hmove] _ IH]; intros Hall; [constructor|].
  apply Forall_cons_iff in Hall as [Ht Hall]. constructor; [|auto].
  destruct Hmove as [[Hs _]|Hdone]; [rewrite Hs; exact Ht|auto].
Qed.

Lemma ordered_tree_drained (query : string) (fuel : nat) (w : World)
    (tree : TaskTree) :
  NoDup (ids (tasks tree)) ->
  Forall (fun t => status t = "pending" \/ status t = "completed")
         (tasks tree) ->
  deps_earlier [] (tasks tree) = true ->
  pending_count (tasks tree) < fuel ->
  exists w' tree',
    execution_loop fuel query w tree = Some (w', tree') /\
    map topology (tasks tree') = map topology (tasks tree) /\
    Forall (fun t => status t = "completed") (tasks tree').
Proof.
  intros Hnodup Hstatus Hearlier Hfuel.
  destruct (execution_loop_returns query fuel w tree Hnodup Hfuel)
    as (w' & tree' & Hloop).
  exists w', tree'. split; [exact Hloop|].
  split; [exact (execution_loop_topology _ _ _ _ _ _ Hloop)|].
  destruct (execution_loop_moved _ _ _ _ _ _ Hloop) as [Hmoved Hempty].
  apply (ordered_stuck_completed (tasks tree')) with (seen := []).
  - rewrite <- get_ready_tasks_filter. exact Hempty.
  - intros d [].
  - auto.
  - exact (moved_pending_or_completed _ _ Hmoved Hstatus).
  - rewrite (deps_earlier_moved _ _ Hmoved). exact Hearlier.
Qed.

(** X9.  A tree with pairwise distinct ids, every task pending or completed,
    and every dependency naming a task earlier in the list is drained
    entirely: the loop exits within one pass per task, and every task is
    completed when it does, whatever the executors answer. *)
Theorem ordered_plan_completes (query : string) (w : World) (tree : TaskTree) :
  NoDup (ids (tasks tree)) ->
  Forall (fun t => status t = "pending" \/ status t = "completed")
         (tasks tree) ->
  deps_earlier [] (tasks tree) = true ->
  exists w' tree',
    execution_loop (S (List.length (tasks tree))) query w tree
    = Some (w', tree') /\
    map topology (tasks tree') = map topology (tasks tree) /\
    Forall (fun t => status t = "completed") (tasks tree').
Proof.
  intros Hnodup Hstatus Hearlier.
  apply ordered_tree_drained; try assumption.
  pose proof (pending_count_le_length (tasks tree)) as Hle.
  apply Nat.lt_succ_r. exact Hle.
Qed.

(** ** What the parser builds *)

Lemma parse_tasks_extends (task_elems : list Element) :
  forall w w' acc ts,
    parse_tasks w task_elems acc = (w', Ok ts) ->
    exists more,
      ts = acc ++ more /\ List.length more = List.length task_elems /\
      Forall fresh more.
Proof.
  induction task_elems as [|task_elem rest IH]; intros w w' acc ts; simpl.
  - intros [= _ <-]. exists []. rewrite app_nil_r. auto.
  - destruct (parse_task w task_elem) as [w1 [task|e]] eqn:Htask;
      [|discriminate].
    intros Hrest. destruct (IH _ _ _ _ Hrest) as (more & -> & Hlen & Hfresh).
    exists (task :: more). rewrite <- app_assoc. simpl.
    repeat split; [now rewrite Hlen|].
    constructor; [exact (parse_task_fresh _ _ _ _ Htask)|exact Hfresh].
Qed.

(** X10.  Every tree [create_task_tree] returns starts with the root the
    planner makes itself, with the request for its description, and
    [root_task] refers to it; every task of the tree is pending and without
    a result.  Nothing of the plan's own root element is used. *)
Theorem created_tree_starts_with_root (w : World) (query : string)
    (tree : TaskTree) :
  snd (create_task_tree w query) = Ok tree ->
  root_task tree = 0 /\
  exists subtasks,
    tasks tree
    = new_Task "root" "投资分析" query "coordinator" [] [] :: subtasks /\
    Forall fresh subtasks.
Proof.
  unfold create_task_tree.
  assert (Hdefault :
    root_task (_create_default_task_tree query) = 0 /\
    exists subtasks,
      tasks (_create_default_task_tree query)
      = new_Task "root" "投资分析" query "coordinator" [] [] :: subtasks /\
      Forall fresh subtasks).
  { split; [reflexivity|]. eexists. split; [reflexivity|].
    repeat constructor. }
  destruct (chain_invoke w query) as [w1 [xml_text|e]]; simpl;
    [|intros [= <-]; exact Hdefault].
  unfold _parse_task_tree_xml, _parse_task_tree_xml_try.
  destruct (fromstring (clean_xml_text xml_text)) as [root|e]; simpl;
    [|intros [= <-]; exact Hdefault].
  destruct (elem_find root "tasks") as [tasks_elem|]; simpl.
  - destruct (parse_tasks w1 (findall tasks_elem "task")
                [new_Task "root" "投资分析" query "coordinator" [] []])
      as [w2 [ts|e]] eqn:Hts; simpl; [|intros [= <-]; exact Hdefault].
    intros [= <-]. split; [reflexivity|].
    destruct (parse_tasks_extends _ _ _ _ _ Hts) as (more & -> & _ & Hfresh).
    exists more. auto.
  - intros [= <-]. split; [reflexivity|]. exists []. auto.
Qed.

Lemma parse_task_parsed_from (w : World) (task_elem : Element) :
  (forall field, In field required_fields ->
                 elem_find task_elem field <> None) ->
  exists w' task,
    parse_task w task_elem = (w', Ok task) /\ parsed_from task_elem task.
Proof.
  intros Hall. unfold parse_task, field_text, parsed_from, field_or.
  destruct (elem_find task_elem "id") as [id_elem|] eqn:Hid;
    [|exfalso; apply (Hall "id"); simpl; auto].
  destruct (elem_find task_elem "name") as [name_elem|] eqn:Hname;
    [|exfalso; apply (Hall "name"); simpl; auto].
  destruct (elem_find task_elem "description") as [d_elem|] eqn:Hd;
    [|exfalso; apply (Hall "description"); simpl; auto].
  destruct (elem_find task_elem "executor_type") as [e_elem|] eqn:He;
    [|exfalso; apply (Hall "executor_type"); simpl; auto].
  destruct (text id_elem) as [s|]; simpl.
  - destruct (String.eqb_spec s "") as [->|Hne].
    + destruct (uuid4 w) as [w1 fresh_id]. eexists _, _.
      split; [reflexivity|]. simpl. repeat split. intros []. reflexivity.
    + eexists _, _. split; [reflexivity|]. simpl. repeat split.
  - destruct (uuid4 w) as [w1 fresh_id]. eexists _, _.
    split; [reflexivity|]. simpl. repeat split. intros []. reflexivity.
Qed.

Lemma parse_tasks_parsed_from (task_elems : list Element) :
  (forall task_elem field,
      In task_elem task_elems -> In field required_fields ->
      elem_find task_elem field <> None) ->
  forall w acc,
    exists w' more,
      parse_tasks w task_elems acc = (w', Ok (acc ++ more)) /\
      Forall2 parsed_from task_elems more.
Proof.
  induction task_elems as [|task_elem rest IH]; intros Hall w acc; simpl.
  - exists w, []. rewrite app_nil_r. auto.
  - destruct (parse_task_parsed_from w task_elem) as (w1 & task & -> & Htask).
    { intros field Hfield. apply Hall; simpl; auto. }
    destruct (IH (fun e f He => Hall e f (or_intror He)) w1 (acc ++ [task]))
      as (w' & more & -> & Hmore).
    exists w', (task :: more). rewrite <- app_assoc. simpl. auto.
Qed.

(** X11.  A parseable plan in which every subtask has the elements of its
    four fields is kept: the tree is the root followed by one task for each
    [<task>] element, in document order, each with the texts of its element
    or their defaults, its dependencies and its parameters. *)
Theorem complete_plan_kept (w : World) (xml_text query : string)
    (root tasks_elem : Element) :
  fromstring (clean_xml_text xml_text) = Ok root ->
  elem_find root "tasks" = Some tasks_elem ->
  (forall task_elem field,
      In task_elem (findall tasks_elem "task") -> In field required_fields ->
      elem_find task_elem field <> None) ->
  exists w' subtasks,
    _parse_task_tree_xml w xml_text query
    = (w', Ok (mkTaskTree 0
                 (new_Task "root" "投资分析" query "coordinator" [] []
                  :: subtasks))) /\
    Forall2 parsed_from (findall tasks_elem "task") subtasks.
Proof.
  intros Hparse Htasks Hall.
  destruct (parse_tasks_parsed_from (findall tasks_elem "task") Hall w
              [new_Task "root" "投资分析" query "coordinator" [] []])
    as (w' & more & Hts & Hmore).
  exists w', more. split; [|exact Hmore].
  unfold _parse_task_tree_xml, _parse_task_tree_xml_try.
  rewrite Hparse, Htasks, Hts. reflexivity.
Qed.

(** X12.  A well-formed document without a [<tasks>] element is not a parse
    failure: the tree has the root alone, not the default tasks.  The loop
    then completes the root without calling an agent, and the report has no
    section. *)
Theorem plan_without_tasks_element (w : World) (xml_text query : string)
    (root : Element) :
  fromstring (clean_xml_text xml_text) = Ok root ->
  elem_find root "tasks" = None ->
  let tree :=
    mkTaskTree 0 [new_Task "root" "投资分析" query "coordinator" [] []] in
  let done :=
    mkTaskTree 0 [mkTask "root" "投资分析" query "coordinator" [] []
                         "completed" None] in
  _parse_task_tree_xml w xml_text query = (w, Ok tree) /\
  (forall w1 q, execution_loop 2 q w1 tree = Some (w1, done)) /\
  all_results done = [].
Proof.
  intros Hparse Htasks. cbv zeta. repeat split.
  unfold _parse_task_tree_xml, _parse_task_tree_xml_try.
  rewrite Hparse, Htasks. reflexivity.
Qed.

(** X13.  No dependency the parser reads is empty or padded: each is a piece
    of the comma-separated text, stripped, and pieces that are blank are
    left out.  Without a [<dependencies>] element, or with one without
    text, there are no dependencies. *)
Theorem parse_dependencies_nonblank (task_elem : Element) :
  (forall d, In d (parse_dependencies task_elem) ->
             d <> "" /\
             exists deps_elem deps_text piece,
               elem_find task_elem "dependencies" = Some deps_elem /\
               text deps_elem = Some deps_text /\
               In piece (split_comma deps_text) /\ d = strip piece) /\
  (elem_find task_elem "dependencies" = None ->
   parse_dependencies task_elem = []) /\
  (forall deps_elem,
      elem_find task_elem "dependencies" = Some deps_elem ->
      truthy (text deps_elem) = false ->
      parse_dependencies task_elem = []).
Proof.
  unfold parse_dependencies. split; [|split].
  - intros d Hd.
    destruct (elem_find task_elem "dependencies") as [deps_elem|];
      [|destruct Hd].
    destruct (text deps_elem) as [deps_text|] eqn:Htext; [|destruct Hd].
    destruct (negb (deps_text =? "")); [|destruct Hd].
    apply in_map_iff in Hd as (piece & <- & Hpiece).
    apply filter_In in Hpiece as [Hin Hne]. split.
    + destruct (String.eqb_spec (strip piece) "");
        [discriminate|assumption].
    + exists deps_elem, deps_text, piece. repeat split; assumption.
  - intros ->. reflexivity.
  - intros deps_elem -> Hfalsy.
    destruct (text deps_elem) as [deps_text|]; [|reflexivity].
    simpl in Hfalsy. rewrite Hfalsy. reflexivity.
Qed.

(** ** Parameters are a dict *)

Lemma dict_get_set_same (d : list (string * PyVal)) (k : string) (v : PyVal) :
  dict_get (dict_set d k v) k = Some v.
Proof.
  induction d as [|[k' v'] d IH]; simpl.
  - now rewrite String.eqb_refl.
  - destruct (k' =? k) eqn:Hk; simpl; rewrite Hk; auto.
Qed.

Lemma dict_get_set_other (d : list (string * PyVal)) (k k' : string)
    (v : PyVal) :
  k <> k' -> dict_get (dict_set d k v) k' = dict_get d k'.
Proof.
  intros Hne. induction d as [|[k0 v0] d IH]; simpl.
  - destruct (String.eqb_spec k k'); [contradiction|reflexivity].
  - destruct (String.eqb_spec k0 k) as [->|Hk]; simpl.
    + destruct (String.eqb_spec k k'); [contradiction|reflexivity].
    + destruct (k0 =? k'); auto.
Qed.

Lemma dict_set_keys (d : list (string * PyVal)) (k : string) (v : PyVal) :
  map fst (dict_set d k v)
  = if existsb (String.eqb k) (map fst d) then map fst d
    else map fst d ++ [k].
Proof.
  induction d as [|[k' v'] d IH]; simpl; [reflexivity|].
  rewrite (String.eqb_sym k k').
  destruct (k' =? k) eqn:Hk; simpl; [reflexivity|].
  rewrite IH. destruct (existsb (String.eqb k) (map fst d)); reflexivity.
Qed.

Lemma dict_set_NoDup (d : list (string * PyVal)) (k : string) (v : PyVal) :
  NoDup (map fst d) -> NoDup (map fst (dict_set d k v)).
Proof.
  intros Hnodup. rewrite dict_set_keys.
  destruct (existsb (String.eqb k) (map fst d)) eqn:Hk; [assumption|].
  apply NoDup_app; [assumption|repeat constructor; intros []|].
  intros x Hx [Heq|[]]. subst x.
  assert (existsb (String.eqb k) (map fst d) = true); [|congruence].
  apply existsb_exists. exists k. split; [assumption|apply String.eqb_refl].
Qed.

Lemma fold_dict_set_NoDup (params : list Element) :
  forall d,
    NoDup (map fst d) ->
    NoDup (map fst (fold_left (fun params param =>
                                 dict_set params (tag param)
                                          (text_value (text param)))
                              params d)).
Proof.
  induction params as [|param rest IH]; intros d Hd; simpl; [assumption|].
  apply IH. now apply dict_set_NoDup.
Qed.

Lemma fold_dict_set_other (params : list Element) (k : string) :
  (forall x, In x params -> tag x <> k) ->
  forall d,
    dict_get (fold_left (fun params param =>
                           dict_set params (tag param)
                                    (text_value (text param)))
                        params d) k
    = dict_get d k.
Proof.
  induction params as [|param rest IH]; intros Hno d; simpl; [reflexivity|].
  rewrite IH by (intros x Hx; apply Hno; simpl; auto).
  apply dict_get_set_other. apply Hno. simpl. auto.
Qed.

(** X14.  The parameters of a task have pairwise distinct keys, and a key is
    bound to the text of the last element carrying it as its tag. *)
Theorem parse_parameters_last_wins (task_elem : Element) :
  NoDup (map fst (parse_parameters task_elem)) /\
  (forall params_elem before param after,
      elem_find task_elem "parameters" = Some params_elem ->
      children params_elem = before ++ param :: after ->
      (forall x, In x after -> tag x <> tag param) ->
      dict_get (parse_parameters task_elem) (tag param)
      = Some (text_value (text param))) /\
  (elem_find task_elem "parameters" = None ->
   parse_parameters task_elem = []).
Proof.
  unfold parse_parameters. repeat split.
  - destruct (elem_find task_elem "parameters"); [|constructor].
    apply fold_dict_set_NoDup. constructor.
  - intros params_elem before param after -> Hchildren Hlast.
    rewrite Hchildren, fold_left_app. simpl.
    rewrite fold_dict_set_other by assumption.
    apply dict_get_set_same.
  - intros ->. reflexivity.
Qed.

(** ** The report *)

Lemma filter_filter_andb {A : Type} (f g : A -> bool) (l : list A) :
  filter g (filter f l) = filter (fun x => f x && g x) l.
Proof.
  induction l as [|a l IH]; simpl; [reflexivity|].
  destruct (f a); simpl; [destruct (g a)|]; now rewrite IH.
Qed.

Lemma update_loop_completed_with_result (ts : list Task) (task_id : string)
    (new_result : option string) :
  (task_id <> "root" -> truthy new_result = true) ->
  Forall completed_with_result ts ->
  Forall completed_with_result
         (update_loop ts task_id "completed" new_result).
Proof.
  intros Hresult. induction 1 as [|task rest Htask Hrest IH]; simpl;
    [constructor|].
  destruct (String.eqb_spec (id task) task_id) as [Heq|Hne];
    constructor; auto.
  intros _ Hroot. simpl in *. rewrite Hresult by congruence.
  apply Hresult. congruence.
Qed.

Lemma reachable_completed_with_result (tree : TaskTree) :
  (forall w executor task w' answer,
      agent_invoke w executor task = (w', Ok answer) -> answer <> "") ->
  reachable tree -> Forall completed_with_result (tasks tree).
Proof.
  intros Hanswer.
  induction 1 as [w query tree Hcreated|query w tree task Hreach IH].
  - apply created_tree_fresh in Hcreated.
    eapply Forall_impl; [|exact Hcreated].
    intros t [Hpending _] Hdone. rewrite Hpending in Hdone. discriminate.
  - unfold run_task.
    destruct (String.eqb_spec (id task) "root") as [Heq|Hne].
    + apply update_loop_completed_with_result; [contradiction|exact IH].
    + unfold execute_task, execute.
      destruct (agent_invoke w (get_executor (executor_type task)) task)
        as [w' [answer|e]] eqn:Hagent;
        apply update_loop_completed_with_result; try exact IH; intros _.
      * simpl. destruct (String.eqb_spec answer "") as [Hempty|_];
          [exfalso; exact (Hanswer _ _ _ _ _ Hagent Hempty)|reflexivity].
      * reflexivity.
Qed.

(** X15.  In every tree the program can hold, the tasks the report counts as
    completed are the tasks it gives a section to: tasks of the tree that are
    completed, have a result with text and are not the root.  When no agent
    answers the empty text, the report gives a section to every completed
    task but the root, in the order of the tree. *)
Theorem report_covers_completed_tasks (tree : TaskTree) :
  reachable tree ->
  counted_tasks tree = report_tasks tree /\
  List.length (all_results tree) = List.length (counted_tasks tree) /\
  (forall t, In t (report_tasks tree) ->
             In t (tasks tree) /\ status t = "completed" /\
             id t <> "root" /\
             exists s, result t = Some s /\ s <> "") /\
  ((forall w executor task w' answer,
       agent_invoke w executor task = (w', Ok answer) -> answer <> "") ->
   report_tasks tree
   = filter (fun t => (status t =? "completed") && negb (id t =? "root"))
            (tasks tree)).
Proof.
  intros Hreach.
  assert (Hcounted : counted_tasks tree = report_tasks tree).
  { unfold report_tasks, counted_tasks.
    rewrite filter_filter_andb. apply filter_ext_in. intros t Hin.
    apply reachable_root_without_result in Hreach.
    rewrite Forall_forall in Hreach. specialize (Hreach t Hin).
    destruct (String.eqb_spec (id t) "root") as [Hroot|_]; simpl.
    - rewrite (Hreach Hroot). simpl. now rewrite !andb_false_r.
    - now rewrite andb_true_r. }
  split; [exact Hcounted|]. split.
  { unfold all_results. rewrite length_map, Hcounted. reflexivity. }
  split.
  - intros t Hin. unfold report_tasks in Hin.
    apply filter_In in Hin as [Hin Hroot].
    apply filter_In in Hin as [Hin Htest].
    apply andb_true_iff in Htest as [Hdone Hresult].
    apply String.eqb_eq in Hdone.
    repeat split; try assumption.
    + intros Heq. rewrite Heq in Hroot. discriminate.
    + destruct (result t) as [s|]; [|discriminate]. exists s.
      split; [reflexivity|]. intros ->. discriminate.
  - intros Hanswer. unfold report_tasks. rewrite filter_filter_andb.
    apply filter_ext_in. intros t Hin.
    pose proof (reachable_completed_with_result tree Hanswer Hreach) as Hall.
    rewrite Forall_forall in Hall. specialize (Hall t Hin).
    destruct (String.eqb_spec (status t) "completed") as [Hdone|_];
      [|reflexivity].
    destruct (String.eqb_spec (id t) "root") as [Hroot|Hroot]; simpl;
      [now rewrite andb_false_r|].
    rewrite (Hall Hdone Hroot). reflexivity.
Qed.

(** ** The request of a run *)

Lemma create_task_tree_returns (w : World) (query : string) :
  exists w' tree, create_task_tree w query = (w', Ok tree).
Proof.
  unfold create_task_tree.
  destruct (chain_invoke w query) as [w1 [xml_text|e]]; [|eauto].
  destruct (_parse_task_tree_xml_returns w1 xml_text query)
    as (w2 & tree & ->). eauto.
Qed.

Lemma last_item_snoc {A : Type} (l : list A) (x : A) :
  last_item (l ++ [x]) = Ok x.
Proof. unfold last_item. rewrite rev_app_distr. reflexivity. Qed.

Lemma text_parts_app (parts1 parts2 : list Part) :
  text_parts (parts1 ++ parts2) = text_parts parts1 ++ text_parts parts2.
Proof.
  induction parts1 as [|part rest IH]; simpl; [reflexivity|].
  destruct part as [[[|t|]|] part_text|]; try exact IH.
  destruct (t =? "text"); simpl; now rewrite IH.
Qed.

(** X16.  [planning_node] takes the request from the state when it holds a
    non-empty one, and the messages are not read.  Otherwise only the last
    message counts: its text, or the texts of its parts of type text joined
    by spaces, every other part being ignored; without any message the node
    raises.  The node raises in no other case, and it answers with the tree
    [create_task_tree] makes for that request. *)
Theorem planning_node_request (w : World) (state_query : option string)
    (messages : list Content) :
  (forall q, state_query = Some q -> q <> "" ->
             request_of state_query messages = Ok q) /\
  (truthy state_query = false ->
   (messages = [] -> exists e, planning_node w state_query messages
                               = (w, Raise e)) /\
   (forall earlier s,
       messages = earlier ++ [ContentStr s] ->
       request_of state_query messages = Ok s) /\
   (forall earlier parts,
       messages = earlier ++ [ContentList parts] ->
       request_of state_query messages = join_space (text_parts parts)) /\
   (forall parts1 part parts2,
       is_text_part part = false ->
       text_parts (parts1 ++ part :: parts2)
       = text_parts (parts1 ++ parts2))) /\
  (forall query,
      request_of state_query messages = Ok query ->
      exists w' tree,
        create_task_tree w query = (w', Ok tree) /\
        planning_node w state_query messages
        = (w', Ok (mkPlanning tree query "planning_complete"
                     (List.length (tasks tree))
                     (option_map name
                        (nth_error (tasks tree) (root_task tree)))))).
Proof.
  split; [|split].
  - intros q -> Hq. unfold request_of.
    destruct (String.eqb_spec q ""); [contradiction|reflexivity].
  - intros Hfalsy.
    assert (Hrequest :
      request_of state_query messages
      = match last_item messages with
        | Raise e => Raise e
        | Ok (ContentList parts) => join_space (text_parts parts)
        | Ok (ContentStr last_message) => Ok last_message
        end).
    { unfold request_of. destruct state_query as [q|]; [|reflexivity].
      simpl in Hfalsy. destruct (q =? ""); [reflexivity|discriminate]. }
    repeat split.
    + intros ->. unfold planning_node. rewrite Hrequest. simpl. eauto.
    + intros earlier s ->. rewrite Hrequest, last_item_snoc. reflexivity.
    + intros earlier parts ->. rewrite Hrequest, last_item_snoc. reflexivity.
    + intros parts1 part parts2 Hpart. rewrite !text_parts_app. f_equal.
      simpl. destruct part as [[[|t|]|] part_text|]; try reflexivity.
      simpl in Hpart. rewrite Hpart. reflexivity.
  - intros query Hrequest. unfold planning_node. rewrite Hrequest.
    destruct (create_task_tree_returns w query) as (w' & tree & Hcreate).
    rewrite Hcreate. eauto.
Qed.

(** ** The whole graph *)

Lemma default_tree_drained (query query' : string) (w : World) :
  exists w' tree',
    execution_loop 7 query' w (_create_default_task_tree query)
    = Some (w', tree') /\
    map topology (tasks tree')
    = map topology (tasks (_create_default_task_tree query)) /\
    Forall (fun t => status t = "completed") (tasks tree').
Proof.
  apply ordered_tree_drained.
  - repeat (apply NoDup_cons;
            [simpl; intros Hin;
             repeat (destruct Hin as [Hin|Hin]; [discriminate Hin|]);
             exact Hin|]).
    apply NoDup_nil.
  - repeat constructor.
  - reflexivity.
  - unfold pending_count. simpl. lia.
Qed.

(** X17.  A run of the graph that ends reports the stage complete, never the
    error stage: the planning always leaves a tree, and the loop has run on
    the tree made for the request.  When the plan generator raises, the run
    ends within seven passes with the six tasks of the default tree
    completed, whatever the executors answer. *)
Theorem graph_run (w : World) (state_query : option string)
    (messages : list Content) :
  (forall fuel w' final stage,
      run_graph fuel w state_query messages = Ok (Some (w', final, stage)) ->
      stage = "complete" /\
      exists query w1 tree tree',
        request_of state_query messages = Ok query /\
        create_task_tree w query = (w1, Ok tree) /\
        execution_loop fuel query w1 tree = Some (w', tree') /\
        final = Some tree') /\
  (forall query w1 e,
      request_of state_query messages = Ok query ->
      chain_invoke w query = (w1, Raise e) ->
      exists w' tree',
        run_graph 7 w state_query messages
        = Ok (Some (w', Some tree', "complete")) /\
        map topology (tasks tree')
        = map topology (tasks (_create_default_task_tree query)) /\
        Forall (fun t => status t = "completed") (tasks tree')).
Proof.
  split.
  - intros fuel w' final stage. unfold run_graph, planning_node.
    destruct (request_of state_query messages) as [query|e];
      [|discriminate].
    destruct (create_task_tree w query) as [w1 [tree|e]] eqn:Hcreate;
      [|discriminate].
    cbn [execution_node planned_tree planned_query].
    destruct (execution_loop fuel query w1 tree) as [[w2 tree']|] eqn:Hloop;
      [|discriminate].
    intros [= <- <- <-]. split; [reflexivity|].
    exists query, w1, tree, tree'. repeat split; assumption.
  - intros query w1 e Hrequest Hchain.
    destruct (default_tree_drained query query w1)
      as (w' & tree' & Hloop & Htopo & Hdone).
    exists w', tree'. split; [|auto].
    unfold run_graph, planning_node, create_task_tree.
    rewrite Hrequest, Hchain.
    cbn [execution_node planned_tree planned_query]. rewrite Hloop.
    reflexivity.
Qed.

(** ** The fragment cut out of a chatty answer *)

Lemma prefix_take (p s : string) :
  prefix p s = true -> take (length p) s = p /\ length p <= length s.
Proof.
  revert s. induction p as [|c p IH]; intros s.
  - destruct s; simpl; split; auto; lia.
  - destruct s as [|c' s]; simpl; [intros Hp; discriminate Hp|].
    destruct (ascii_dec c c') as [<-|_]; [|intros Hp; discriminate Hp].
    intros Hp. destruct (IH s Hp) as [Htake Hlen].
    rewrite Htake. split; [reflexivity|lia].
Qed.

Lemma length_drop (k : nat) (s : string) :
  length (drop k s) = length s - k.
Proof.
  revert s. induction k as [|k IH]; intros s; simpl; [lia|].
  destruct s as [|c s]; simpl; [reflexivity|apply IH].
Qed.

Lemma take_add (j n : nat) (s : string) :
  take (j + n) s = (take j s ++ take n (drop j s))%string.
Proof.
  revert s. induction j as [|j IH]; intros s; simpl; [reflexivity|].
  destruct s as [|c s]; simpl.
  - destruct n; reflexivity.
  - now rewrite IH.
Qed.

Lemma slice_from_nat (s : string) (k : nat) :
  k <= length s -> slice_from s (Z.of_nat k) = drop k s.
Proof.
  intros Hk. unfold slice_from, slice_bound.
  destruct (Z.ltb_spec (Z.of_nat k) 0); [lia|].
  f_equal. lia.
Qed.

Lemma slice_to_nat (s : string) (k : nat) :
  k <= length s -> slice_to s (Z.of_nat k) = take k s.
Proof.
  intros Hk. unfold slice_to, slice_bound.
  destruct (Z.ltb_spec (Z.of_nat k) 0); [lia|].
  f_equal. lia.
Qed.

Lemma take_drop (n : nat) (s : string) :
  s = (take n s ++ drop n s)%string.
Proof.
  revert s. induction n as [|n IH]; intros s; simpl; [reflexivity|].
  destruct s as [|c s]; simpl; [reflexivity|]. now rewrite <- IH.
Qed.

Lemma string_app_assoc (a b c : string) :
  ((a ++ b) ++ c = a ++ (b ++ c))%string.
Proof. induction a as [|x a IH]; simpl; [reflexivity|now rewrite IH]. Qed.

Lemma closing_marker_after_opening (fragment : string) (j : nat) :
  prefix "<task_tree>" fragment = true ->
  prefix "</task_tree>" (drop j fragment) = true ->
  11 <= j.
Proof.
  intros Hopen Hclose.
  destruct (prefix_take _ _ Hopen) as [Htake Hlen].
  change (length "<task_tree>") with 11 in Htake.
  rewrite (take_drop 11 fragment), Htake in Hclose. clear - Hclose.
  do 11 (destruct j as [|j]; [vm_compute in Hclose; discriminate Hclose|]).
  lia.
Qed.

Lemma drop_beyond (j : nat) (s : string) :
  length s <= j -> drop j s = "".
Proof.
  revert s. induction j as [|j IH]; intros s Hlen.
  - destruct s; [reflexivity|simpl in Hlen; lia].
  - destruct s as [|c s]; [reflexivity|]. simpl in *. apply IH. lia.
Qed.

Lemma length_take (k : nat) (s : string) :
  k <= length s -> length (take k s) = k.
Proof.
  revert s. induction k as [|k IH]; intros s Hlen; [destruct s; reflexivity|].
  destruct s as [|c s]; simpl in *; [lia|]. rewrite IH; lia.
Qed.

Lemma length_string_app (a b : string) :
  length (a ++ b)%string = length a + length b.
Proof. induction a as [|x a IH]; simpl; [reflexivity|now rewrite IH]. Qed.

(** [find_from] stops at the first position where the pattern occurs. *)
Lemma find_from_first (pat s : string) :
  forall i,
    (find_from pat s i = (-1)%Z /\
     forall j, prefix pat (drop j s) = false) \/
    exists k, find_from pat s i = (i + Z.of_nat k)%Z /\ k <= length s /\
              prefix pat (drop k s) = true /\
              forall j, j < k -> prefix pat (drop j s) = false.
Proof.
  induction s as [|c s IH]; intros i.
  - cbn [find_from]. destruct (prefix pat "") eqn:Hp.
    + right. exists 0. rewrite Z.add_0_r. repeat split; auto. intros j Hj. lia.
    + left. split; [reflexivity|]. intros j. destruct j; exact Hp.
  - cbn [find_from]. destruct (prefix pat (String c s)) eqn:Hp.
    + right. exists 0. rewrite Z.add_0_r. simpl.
      repeat split; [lia|exact Hp|]. intros j Hj. lia.
    + destruct (IH (i + 1)%Z) as [[Hnone Hall]|(k & Hk & Hlen & Hpre & Hmin)].
      * left. split; [exact Hnone|]. intros [|j]; [exact Hp|apply Hall].
      * right. exists (S k). rewrite Hk. simpl.
        repeat split; [lia|lia|exact Hpre|].
        intros [|j] Hj; [exact Hp|]. apply Hmin. lia.
Qed.

(** X18.  What [_parse_task_tree_xml] hands to the XML parser.  A stripped
    text that starts with ['<'], or that does not hold ['<task_tree>'], is
    handed over whole.  Otherwise the text before the first ['<task_tree>']
    is dropped, and so is everything after the first ['</task_tree>'] that
    follows; when no ['</task_tree>'] follows, all that is left is the bare
    ['<task_tree>'].  [find] answers [-1] exactly when the pattern occurs at
    no position. *)
Theorem clean_xml_text_fragment (xml_text : string) :
  let stripped := strip xml_text in
  let fragment := slice_from stripped (find stripped "<task_tree>") in
  (startswith stripped "<" = true -> clean_xml_text xml_text = stripped) /\
  (find stripped "<task_tree>" = (-1)%Z ->
   clean_xml_text xml_text = stripped) /\
  (startswith stripped "<" = false ->
   find stripped "<task_tree>" <> (-1)%Z ->
   (exists before,
       stripped = (before ++ fragment)%string /\
       prefix "<task_tree>" fragment = true /\
       forall j, j < length before ->
                 prefix "<task_tree>" (drop j stripped) = false) /\
   (find fragment "</task_tree>" = (-1)%Z ->
    clean_xml_text xml_text = "<task_tree>") /\
   (find fragment "</task_tree>" <> (-1)%Z ->
    exists body after,
      clean_xml_text xml_text
      = ("<task_tree>" ++ body ++ "</task_tree>")%string /\
      fragment = (clean_xml_text xml_text ++ after)%string /\
      forall j, j < length ("<task_tree>" ++ body)%string ->
                prefix "</task_tree>" (drop j fragment) = false)) /\
  (forall s pat,
      find s pat = (-1)%Z <-> forall j, prefix pat (drop j s) = false).
Proof.
  cbv zeta.
  assert (Hfind : forall s pat,
             find s pat = (-1)%Z <-> forall j, prefix pat (drop j s) = false).
  { intros s pat. unfold find.
    destruct (find_from_first pat s 0)
      as [[Hnone Hall]|(k & Hk & Hlen & Hpre & Hmin)].
    - split; auto.
    - split.
      + intros Hnone. rewrite Hk in Hnone. lia.
      + intros Hall. rewrite Hall in Hpre. discriminate Hpre. }
  split; [|split; [|split; [|exact Hfind]]]; unfold clean_xml_text.
  { intros ->. reflexivity. }
  { intros ->. simpl. destruct (startswith (strip xml_text) "<"); reflexivity. }
  intros -> Hfound. simpl negb. cbv iota.
  destruct (Z.eqb_spec (find (strip xml_text) "<task_tree>") (-1))
    as [Hnone|_]; [contradiction|]. simpl negb. cbv iota.
  unfold find in *.
  destruct (find_from_first "<task_tree>" (strip xml_text) 0)
    as [[Hnone _]|(k & Hk & Hlen & Hopen & Hfirst)]; [contradiction|].
  rewrite Hk, Z.add_0_l, (slice_from_nat _ _ Hlen).
  set (fragment := drop k (strip xml_text)) in *.
  destruct (prefix_take _ _ Hopen) as [Htake Hlen11].
  change (length "<task_tree>") with 11 in Htake, Hlen11.
  split.
  { exists (take k (strip xml_text)).
    split; [apply take_drop|]. split; [exact Hopen|].
    intros j Hj. rewrite length_take in Hj by exact Hlen. auto. }
  destruct (find_from_first "</task_tree>" fragment 0)
    as [[Hnone _]|(j & Hj & Hjlen & Hclose & Hnotbefore)].
  - split; [|intros Hno; contradiction].
    intros _. rewrite Hnone.
    change (-1 + Z.of_nat (length "</task_tree>"))%Z with (Z.of_nat 11).
    rewrite (slice_to_nat _ _ Hlen11). exact Htake.
  - split; [intros Hno; rewrite Hj in Hno; lia|]. intros _.
    rewrite Hj, Z.add_0_l.
    change (Z.of_nat (length "</task_tree>")) with (Z.of_nat 12).
    rewrite <- Nat2Z.inj_add.
    destruct (prefix_take _ _ Hclose) as [Htake12 Hlen12].
    change (length "</task_tree>") with 12 in Htake12, Hlen12.
    rewrite length_drop in Hlen12.
    rewrite slice_to_nat by lia.
    pose proof (closing_marker_after_opening fragment j Hopen Hclose) as Hj11.
    exists (take (j - 11) (drop 11 fragment)), (drop (j + 12) fragment).
    split; [|split; [apply take_drop|]].
    + rewrite take_add, Htake12.
      replace j with (11 + (j - 11)) at 1 by lia.
      rewrite take_add, Htake.
      rewrite string_app_assoc. reflexivity.
    + intros j' Hj'. apply Hnotbefore.
      rewrite length_string_app, length_take in Hj'.
      * change (length "<task_tree>") with 11 in Hj'. lia.
      * rewrite length_drop. lia.
Qed.

End Agent.

(** * Examples

    The theorems at concrete plans and environments. *)

(** Readiness on a small tree: a pending task without dependencies is ready;
    a task depending on an id no task carries, on a failed task or on a
    pending task is not; a task depending on a completed task is. *)
Example ready_tasks_sample :
  ids (get_ready_tasks
         (mkTaskTree 0
            [ mkTask "root" "r" "" "coordinator" [] [] "completed" None;
              new_Task "free" "" "" "data_collector" [] [];
              new_Task "dangling" "" "" "data_collector" ["ghost"] [];
              mkTask "broken" "" "" "data_collector" [] [] "failed"
                     (Some "boom");
              new_Task "after_broken" "" "" "data_collector" ["broken"] [];
              new_Task "after_free" "" "" "data_collector" ["free"] [];
              new_Task "after_root" "" "" "data_collector" ["root"] [] ]%list))
  = ["free"; "after_root"]%list.
Proof. reflexivity. Qed.

(** Without a tree [execution_node] reports an error and runs nothing. *)
Example execution_node_without_tree :
  execution_node nat (sample_agent (Ok "done")) 0 0 None "analyze X"
  = Some (0, None, "error").
Proof. reflexivity. Qed.

(** The text around a plan is cut away before it is parsed. *)
Example clean_xml_text_sample :
  clean_xml_text ("  Here is the plan: " ++ sample_nameless_text ++ " Enjoy! ")
  = sample_nameless_text.
Proof. vm_compute. reflexivity. Qed.

(** The parser reads the plan that repeats an id into
    [sample_repeated_id_tree]. *)
Example repeated_id_plan_parsed :
  snd (_parse_task_tree_xml nat sample_uuid4
         (sample_fromstring sample_repeated_id_text sample_repeated_id_plan)
         0 ("Plan: " ++ sample_repeated_id_text ++ " Done.") "analyze X")
  = Ok sample_repeated_id_tree.
Proof. vm_compute. reflexivity. Qed.

(** With agents that always raise, the loop ends with every task of
    [sample_pair_tree] completed: the task whose agent failed carries the
    failure text, and the task depending on it has run too. *)
Example failing_agents_run :
  option_map
    (fun st => map (fun t => (id t, status t, result t)) (tasks (snd st)))
    (execution_loop nat (sample_agent (Raise (Exception "boom"))) 4
       "analyze X" 0 sample_pair_tree)
  = Some [ ("root", "completed", None);
           ("t1", "completed", Some "执行失败: boom");
           ("t2", "completed", Some "执行失败: boom") ].
Proof. vm_compute. reflexivity. Qed.

(** With agents that answer, the default tree is drained in four passes;
    the report lists every task but the root. *)
Example default_tree_run :
  option_map (fun st => (ids (report_tasks (snd st)),
                         map status (tasks (snd st))))
    (execution_loop nat (sample_agent (Ok "done")) 5 "analyze X" 0
       (_create_default_task_tree "analyze X"))
  = Some ([ "data_collection"; "technical_analysis"; "news_analysis";
            "risk_assessment"; "report_generation" ],
          [ "completed"; "completed"; "completed"; "completed"; "completed";
            "completed" ]).
Proof. vm_compute. reflexivity. Qed.

(** C4, the claim as stated fails: in the tree [create_task_tree] returns for
    a plan text that is not XML, the news task does not depend on the
    data-collection task. *)
Lemma fallback_news_task_independent :
  exists tree,
    snd (create_task_tree nat (sample_chain (Ok "I cannot plan this."))
           sample_uuid4
           (sample_fromstring sample_chain_text sample_chain_plan)
           0 "analyze X") = Ok tree /\
    ~ (forall t,
          In t (tasks tree) ->
          In (id t) ["technical_analysis"; "news_analysis"; "risk_assessment"]
          -> In "data_collection" (dependencies t)).
Proof.
  eexists. split; [vm_compute; reflexivity|].
  intros Hall.
  specialize (Hall (new_Task "news_analysis" "消息面分析"
                      "分析相关新闻和市场情绪对投资的影响" "news_analyst" []
                      [("keyword", VStr "腾讯控股"); ("days", VInt 7)])).
  apply Hall; simpl; auto.
Qed.

(** The trees reachable when the generator times out and every agent
    answers. *)
Abbreviation sample_reachable :=
  (reachable nat (sample_chain (Raise (Exception "timeout")))
     (sample_agent (Ok "done")) sample_uuid4
     (sample_fromstring sample_chain_text sample_chain_plan)).

Lemma sample_default_tree_reachable :
  sample_reachable (_create_default_task_tree "analyze X").
Proof.
  apply (reachable_created nat (sample_chain (Raise (Exception "timeout")))
           (sample_agent (Ok "done")) sample_uuid4
           (sample_fromstring sample_chain_text sample_chain_plan)
           0 "analyze X").
  reflexivity.
Qed.

(** C5, the claim as stated fails: after the scheduler has completed the
    root of the default tree, the root is completed and its result is
    [None]. *)
Lemma completed_root_has_no_result :
  ~ (forall tree,
        sample_reachable tree ->
        forall t, In t (tasks tree) ->
                  (result t <> None <->
                   status t = "completed" \/ status t = "failed")).
Proof.
  intros Hiff.
  pose (root := new_Task "root" "投资分析" "analyze X" "coordinator" [] []).
  assert (Hready : In root (get_ready_tasks
                              (_create_default_task_tree "analyze X")))
    by (vm_compute; auto).
  pose proof (reachable_run nat (sample_chain (Raise (Exception "timeout")))
                (sample_agent (Ok "done")) sample_uuid4
                (sample_fromstring sample_chain_text sample_chain_plan)
                "analyze X" 0 (_create_default_task_tree "analyze X") root
                sample_default_tree_reachable) as Hreach.
  specialize (Hiff _ Hreach (assign_status root "completed" None)
                   (or_introl eq_refl)).
  destruct Hiff as [_ Hset]. apply Hset; [left|]; reflexivity.
Qed.

(** C5 at the default tree once the data-collection task has run: its result
    is set and it is completed. *)
Lemma result_set_only_when_finished_witness :
  sample_reachable
    (update_task_status (_create_default_task_tree "analyze X")
       "data_collection" "completed" (Some "done")) /\
  result (assign_status
            (new_Task "data_collection" "基础数据收集"
               "收集0700.HK的基础财务和市场数据" "data_collector" []
               [("symbol", VStr "0700.HK"); ("period", VStr "1y")])
            "completed" (Some "done")) = Some "done" /\
  status (assign_status
            (new_Task "data_collection" "基础数据收集"
               "收集0700.HK的基础财务和市场数据" "data_collector" []
               [("symbol", VStr "0700.HK"); ("period", VStr "1y")])
            "completed" (Some "done")) = "completed".
Proof.
  pose (task := new_Task "data_collection" "基础数据收集"
                  "收集0700.HK的基础财务和市场数据" "data_collector" []
                  [("symbol", VStr "0700.HK"); ("period", VStr "1y")]).
  assert (Hreach :
    sample_reachable
      (update_task_status (_create_default_task_tree "analyze X")
         "data_collection" "completed" (Some "done"))).
  { exact (reachable_run nat (sample_chain (Raise (Exception "timeout")))
             (sample_agent (Ok "done")) sample_uuid4
             (sample_fromstring sample_chain_text sample_chain_plan)
             "analyze X" 0 (_create_default_task_tree "analyze X") task
             sample_default_tree_reachable). }
  split; [exact Hreach|]. split; [reflexivity|].
  destruct (result_set_only_when_finished nat _ _ _ _ _
              (assign_status task "completed" (Some "done")) Hreach
              (or_intror (or_introl eq_refl))) as [Hfinished _].
  destruct (Hfinished ltac:(discriminate)) as [Hdone|Hfailed];
    [exact Hdone|discriminate Hfailed].
Defined.

(** C6, the claim as stated fails: in the tree parsed from the plan A, B, C
    the root is ready beside A. *)
Lemma chain_plan_root_is_ready :
  exists tree,
    snd (_parse_task_tree_xml nat sample_uuid4
           (sample_fromstring sample_chain_text sample_chain_plan)
           0 sample_chain_text "analyze X") = Ok tree /\
    ~ (forall t, In t (get_ready_tasks tree) -> id t = "A").
Proof.
  eexists. split; [vm_compute; reflexivity|].
  intros Hall.
  specialize (Hall (new_Task "root" "投资分析" "analyze X" "coordinator" [] [])
                   (or_introl eq_refl)).
  discriminate Hall.
Qed.

(** C6 at a plan laid out one tag to a line inside a chatty answer: root and
    A are ready at first, and B alone once the root and A are completed. *)
Lemma chain_plan_ready_tasks_witness :
  sample_fromstring sample_layout_text sample_layout_plan
    (clean_xml_text ("Here is the plan:" ++ sample_nl ++ sample_layout_text
                     ++ sample_nl ++ "Good luck!"))
  = Ok sample_layout_plan /\
  exists tree,
    _parse_task_tree_xml nat sample_uuid4
      (sample_fromstring sample_layout_text sample_layout_plan) 0
      ("Here is the plan:" ++ sample_nl ++ sample_layout_text
       ++ sample_nl ++ "Good luck!") "analyze X" = (0, Ok tree) /\
    ids (tasks tree) = ["root"; "A"; "B"; "C"]%list /\
    map dependencies (tasks tree) = [[]; []; ["A"]; ["B"]]%list /\
    ids (get_ready_tasks tree) = ["root"; "A"]%list /\
    ids (get_ready_tasks
           (update_task_status
              (update_task_status tree "root" "completed" None)
              "A" "completed" (Some "prices"))) = ["B"]%list.
Proof.
  assert (Hparse :
    sample_fromstring sample_layout_text sample_layout_plan
      (clean_xml_text ("Here is the plan:" ++ sample_nl ++ sample_layout_text
                       ++ sample_nl ++ "Good luck!"))
    = Ok sample_layout_plan) by (vm_compute; reflexivity).
  split; [exact Hparse|].
  assert (Hfields : forall task_elem,
             In task_elem (children sample_layout_tasks) ->
             forall field, In field required_fields ->
                           elem_find task_elem field <> None).
  { intros task_elem Htask field Hfield. simpl in Htask, Hfield.
    destruct Htask as [<-|[<-|[<-|[]]]];
      destruct Hfield as [<-|[<-|[<-|[<-|[]]]]]; discriminate. }
  destruct (chain_plan_ready_tasks nat sample_uuid4
              (sample_fromstring sample_layout_text sample_layout_plan) 0
              ("Here is the plan:" ++ sample_nl ++ sample_layout_text
               ++ sample_nl ++ "Good luck!") "analyze X"
              sample_layout_plan sample_layout_tasks
              sample_layout_a sample_layout_b sample_layout_c
              "A" "B" "C" Hparse eq_refl eq_refl)
    as (tree & Htree & Hids & Hdeps & Hready).
  - split; [apply Hfields; simpl; auto|].
    split; [reflexivity|]. split; [discriminate|reflexivity].
  - split; [apply Hfields; simpl; auto|].
    split; [reflexivity|]. split; [discriminate|vm_compute; reflexivity].
  - split; [apply Hfields; simpl; auto|].
    split; [reflexivity|]. split; [discriminate|vm_compute; reflexivity].
  - discriminate.
  - discriminate.
  - discriminate.
  - discriminate.
  - discriminate.
  - discriminate.
  - exists tree. split; [exact Htree|]. split; [exact Hids|].
    split; [exact Hdeps|].
    destruct (Hready (Some "prices") None None)
      as (Hfirst & _ & _ & _ & _ & Hsecond & _).
    split; [exact Hfirst|exact Hsecond].
Defined.

(** The plan written on one line is read into the same tasks. *)
Example chain_plan_one_line :
  option_map
    (fun tree => (ids (tasks tree), map dependencies (tasks tree)))
    (match snd (_parse_task_tree_xml nat sample_uuid4
                  (sample_fromstring sample_chain_text sample_chain_plan)
                  0 sample_chain_text "analyze X") with
     | Ok tree => Some tree
     | Raise _ => None
     end)
  = Some (["root"; "A"; "B"; "C"]%list, [[]; []; ["A"]; ["B"]]%list).
Proof. vm_compute. reflexivity. Qed.

(** C7 at a plan whose subtask has no name element, found inside a chatty
    answer: the tree returned is the default tree. *)
Lemma missing_field_discards_plan_witness :
  sample_fromstring sample_nameless_text sample_nameless_plan
    (clean_xml_text ("Here is the plan: " ++ sample_nameless_text))
  = Ok sample_nameless_plan /\
  snd (_parse_task_tree_xml nat sample_uuid4
         (sample_fromstring sample_nameless_text sample_nameless_plan)
         0 ("Here is the plan: " ++ sample_nameless_text) "analyze X")
  = Ok (_create_default_task_tree "analyze X").
Proof.
  assert (Hparse :
    sample_fromstring sample_nameless_text sample_nameless_plan
      (clean_xml_text ("Here is the plan: " ++ sample_nameless_text))
    = Ok sample_nameless_plan) by (vm_compute; reflexivity).
  split; [exact Hparse|].
  eapply (missing_field_discards_plan nat sample_uuid4 _ 0 _ "analyze X"
            sample_nameless_plan _ _ "name" Hparse).
  - reflexivity.
  - left. reflexivity.
  - simpl. auto.
  - reflexivity.
Defined.

(** C3 at [sample_pair_tree]: the agent of t1 raises, t1 is marked completed
    with the failure text, and t2, which depends on t1, is ready next. *)
Lemma agent_failure_marked_completed_witness :
  run_task nat (sample_agent (Raise (Exception "boom"))) "analyze X"
    (0, sample_pair_tree)
    (new_Task "t1" "prices" "collect prices" "data_collector" [] [])
  = (1, update_task_status sample_pair_tree "t1" "completed"
          (Some "执行失败: boom")) /\
  ids (get_ready_tasks
         (update_task_status sample_pair_tree "t1" "completed"
            (Some "执行失败: boom"))) = ["root"; "t2"]%list.
Proof.
  split; [|reflexivity].
  apply (agent_failure_marked_completed nat
           (sample_agent (Raise (Exception "boom"))) "analyze X" 0 1
           sample_pair_tree
           (new_Task "t1" "prices" "collect prices" "data_collector" [] [])
           (Exception "boom")).
  - discriminate.
  - reflexivity.
Defined.

(** X1 at the default tree. *)
Lemma execution_loop_exits_witness :
  NoDup (ids (tasks (_create_default_task_tree "analyze X"))) /\
  pending_count (tasks (_create_default_task_tree "analyze X")) < 7 /\
  exists w' tree',
    execution_loop nat (sample_agent (Ok "done")) 7 "analyze X" 0
      (_create_default_task_tree "analyze X") = Some (w', tree') /\
    get_ready_tasks tree' = []%list.
Proof.
  assert (Hnodup : NoDup (ids (tasks (_create_default_task_tree "analyze X")))).
  { repeat constructor; simpl; intuition discriminate. }
  assert (Hfuel : pending_count (tasks (_create_default_task_tree "analyze X"))
                  < 7) by (vm_compute; lia).
  split; [exact Hnodup|]. split; [exact Hfuel|].
  destruct (execution_loop_exits nat (sample_agent (Ok "done")) "analyze X" 7 0
              (_create_default_task_tree "analyze X") Hnodup Hfuel)
    as (w' & tree' & Hloop & Hempty & _).
  exists w', tree'. split; assumption.
Defined.

(** X2 at [sample_pair_tree]. *)
Lemma batch_completes_ready_tasks_witness :
  NoDup (ids (tasks sample_pair_tree)) /\
  get_ready_tasks sample_pair_tree <> []%list /\
  pending_count
    (tasks (snd (run_batch nat (sample_agent (Ok "done")) "analyze X" 0
                   sample_pair_tree (get_ready_tasks sample_pair_tree))))
  < pending_count (tasks sample_pair_tree).
Proof.
  assert (Hnodup : NoDup (ids (tasks sample_pair_tree))).
  { repeat constructor; simpl; intuition discriminate. }
  assert (Hne : get_ready_tasks sample_pair_tree <> []%list)
    by (vm_compute; discriminate).
  split; [exact Hnodup|]. split; [exact Hne|].
  exact (proj2 (batch_completes_ready_tasks nat (sample_agent (Ok "done"))
                  "analyze X" 0 sample_pair_tree Hnodup Hne)).
Defined.

(** X3 at a plan whose subtask leaves its id, name and executor type
    blank. *)
Lemma parse_task_blank_fields_witness :
  snd (_parse_task_tree_xml nat sample_uuid4
         (sample_fromstring sample_blank_text sample_blank_plan)
         0 sample_blank_text "analyze X")
  = Ok (mkTaskTree 0
          [ new_Task "root" "投资分析" "analyze X" "coordinator" [] [];
            new_Task "3f2b8c1e-0000-4000-8000-000000000000" "默认任务" "collect prices"
              "data_collector" [] [] ]%list) /\
  parse_task nat sample_uuid4 0
    (mkElement "task" None
       [ mkElement "id" None [];
         mkElement "name" None [];
         mkElement "description" (Some "collect prices") [];
         mkElement "executor_type" None [] ]%list)
  = (1, Ok (new_Task "3f2b8c1e-0000-4000-8000-000000000000" "默认任务" "collect prices"
              "data_collector" [] [])).
Proof.
  split; [vm_compute; reflexivity|].
  exact (parse_task_blank_fields nat sample_uuid4 0
           (mkElement "task" None
              [ mkElement "id" None [];
                mkElement "name" None [];
                mkElement "description" (Some "collect prices") [];
                mkElement "executor_type" None [] ]%list)
           (mkElement "id" None []) (mkElement "name" None [])
           (mkElement "description" (Some "collect prices") [])
           (mkElement "executor_type" None [])
           eq_refl eq_refl eq_refl eq_refl).
Defined.

(** * Further examples *)

(** With two tasks of one id, the scheduler completes the first of them
    although its dependency is the id of no task. *)
Example shadowed_task_completed_early :
  deps_closed (tasks sample_shadowed_tree) = true /\
  deps_closed
    (tasks (snd (run_batch nat (sample_agent (Ok "done")) "analyze X" 0
                   sample_shadowed_tree
                   (get_ready_tasks sample_shadowed_tree)))) = false.
Proof. split; vm_compute; reflexivity. Qed.

(** A task whose agent answers the empty text is completed without a result
    and has no section in the report. *)
Example empty_answer_left_out :
  option_map
    (fun st => (map (fun t => (id t, status t, result t)) (tasks (snd st)),
                all_results (snd st)))
    (execution_loop nat (sample_agent (Ok "")) 4 "analyze X" 0
       sample_pair_tree)
  = Some ([ ("root", "completed", None);
            ("t1", "completed", None);
            ("t2", "completed", None) ], []).
Proof. vm_compute. reflexivity. Qed.

(** An answer that opens a plan and never closes it is cut down to the
    opening marker. *)
Example unclosed_plan_cut :
  clean_xml_text "Sure! <task_tree><tasks><task><id>a</id></task>"
  = "<task_tree>".
Proof. vm_compute. reflexivity. Qed.

(** The request of a structured message: the texts of its text parts. *)
Example structured_request :
  request_of (Some "")
    [ ContentStr "hello";
      ContentList
        [ PartDict (Some (VStr "text")) (Some (VStr "analyze"));
          PartDict (Some (VStr "image_url")) None;
          PartOther;
          PartDict (Some (VStr "text")) (Some (VStr "X")) ] ]
  = Ok "analyze X".
Proof. reflexivity. Qed.

(** The trees reachable when the generator times out and every agent
    raises. *)
Abbreviation failing_reachable :=
  (reachable nat (sample_chain (Raise (Exception "timeout")))
     (sample_agent (Raise (Exception "boom"))) sample_uuid4
     (sample_fromstring sample_chain_text sample_chain_plan)).

Lemma failing_data_task_reachable :
  failing_reachable
    (update_task_status (_create_default_task_tree "analyze X")
       "data_collection" "completed" (Some "执行失败: boom")).
Proof.
  apply (reachable_run nat (sample_chain (Raise (Exception "timeout")))
           (sample_agent (Raise (Exception "boom"))) sample_uuid4
           (sample_fromstring sample_chain_text sample_chain_plan)
           "analyze X" 0 (_create_default_task_tree "analyze X")
           sample_data_task).
  apply (reachable_created nat (sample_chain (Raise (Exception "timeout")))
           (sample_agent (Raise (Exception "boom"))) sample_uuid4
           (sample_fromstring sample_chain_text sample_chain_plan)
           0 "analyze X").
  reflexivity.
Qed.

Lemma sample_data_task_reachable :
  sample_reachable
    (update_task_status (_create_default_task_tree "analyze X")
       "data_collection" "completed" (Some "done")).
Proof.
  exact (reachable_run nat (sample_chain (Raise (Exception "timeout")))
           (sample_agent (Ok "done")) sample_uuid4
           (sample_fromstring sample_chain_text sample_chain_plan)
           "analyze X" 0 (_create_default_task_tree "analyze X")
           sample_data_task sample_default_tree_reachable).
Qed.

(** X5 at the default tree once the agent of the data-collection task has
    raised: the task is completed. *)
Lemma scheduler_never_marks_failed_witness :
  failing_reachable
    (update_task_status (_create_default_task_tree "analyze X")
       "data_collection" "completed" (Some "执行失败: boom")) /\
  status (assign_status sample_data_task "completed"
            (Some "执行失败: boom")) = "completed".
Proof.
  split; [exact failing_data_task_reachable|].
  destruct (scheduler_never_marks_failed nat _ _ _ _ _
              (assign_status sample_data_task "completed"
                 (Some "执行失败: boom"))
              failing_data_task_reachable (or_intror (or_introl eq_refl)))
    as [Hpending|Hdone]; [discriminate Hpending|exact Hdone].
Defined.

(** X7 at [sample_blocked_tree]: the loop exits, and the task left pending
    waits for an id no task carries. *)
Lemma loop_exit_leaves_blocked_tasks_witness :
  exists w' tree',
    execution_loop nat (sample_agent (Ok "done")) 3 "analyze X" 0
      sample_blocked_tree = Some (w', tree') /\
    map status (tasks tree') = ["completed"; "completed"; "pending"] /\
    forall t, In t (tasks tree') -> status t = "pending" ->
              exists d, In d (dependencies t) /\
                        dep_completed (tasks tree') d = false.
Proof.
  destruct (execution_loop nat (sample_agent (Ok "done")) 3 "analyze X" 0
              sample_blocked_tree) as [[w' tree']|] eqn:Hloop;
    [|vm_compute in Hloop; discriminate Hloop].
  exists w', tree'. split; [reflexivity|]. split.
  - vm_compute in Hloop. injection Hloop as _ <-. reflexivity.
  - exact (proj2 (loop_exit_leaves_blocked_tasks nat
                    (sample_agent (Ok "done")) 3 "analyze X" 0 w'
                    sample_blocked_tree tree' Hloop)).
Defined.

Lemma sample_pair_tree_NoDup : NoDup (ids (tasks sample_pair_tree)).
Proof. repeat constructor; simpl; intuition discriminate. Qed.

Lemma default_tree_NoDup (query : string) :
  NoDup (ids (tasks (_create_default_task_tree query))).
Proof. repeat constructor; simpl; intuition discriminate. Qed.

(** X8 at [sample_pair_tree]. *)
Lemma dependencies_completed_first_witness :
  NoDup (ids (tasks sample_pair_tree)) /\
  deps_closed (tasks sample_pair_tree) = true /\
  deps_closed
    (tasks (snd (run_batch nat (sample_agent (Ok "done")) "analyze X" 0
                   sample_pair_tree (get_ready_tasks sample_pair_tree))))
  = true.
Proof.
  split; [exact sample_pair_tree_NoDup|]. split; [reflexivity|].
  exact (proj1 (dependencies_completed_first nat (sample_agent (Ok "done"))
                  sample_pair_tree sample_pair_tree_NoDup eq_refl)
               "analyze X" 0).
Defined.

(** X9 at the default tree, with agents that raise. *)
Lemma ordered_plan_completes_witness :
  NoDup (ids (tasks (_create_default_task_tree "analyze X"))) /\
  deps_earlier [] (tasks (_create_default_task_tree "analyze X")) = true /\
  exists w' tree',
    execution_loop nat (sample_agent (Raise (Exception "boom"))) 7
      "analyze X" 0 (_create_default_task_tree "analyze X")
    = Some (w', tree') /\
    Forall (fun t => status t = "completed") (tasks tree').
Proof.
  split; [exact (default_tree_NoDup "analyze X")|]. split; [reflexivity|].
  destruct (ordered_plan_completes nat (sample_agent (Raise (Exception "boom")))
              "analyze X" 0 (_create_default_task_tree "analyze X")
              (default_tree_NoDup "analyze X"))
    as (w' & tree' & Hloop & _ & Hdone).
  - repeat constructor.
  - reflexivity.
  - exists w', tree'. split; [exact Hloop|exact Hdone].
Defined.

(** X10 at the sample plan. *)
Lemma created_tree_starts_with_root_witness :
  exists tree,
    snd (create_task_tree nat (sample_chain (Ok sample_chain_text))
           sample_uuid4
           (sample_fromstring sample_chain_text sample_chain_plan)
           0 "analyze X") = Ok tree /\
    ids (tasks tree) = ["root"; "A"; "B"; "C"] /\
    root_task tree = 0 /\
    exists subtasks,
      tasks tree
      = new_Task "root" "投资分析" "analyze X" "coordinator" [] []
        :: subtasks.
Proof.
  eexists. split; [vm_compute; reflexivity|]. split; [reflexivity|].
  destruct (created_tree_starts_with_root nat
              (sample_chain (Ok sample_chain_text)) sample_uuid4
              (sample_fromstring sample_chain_text sample_chain_plan)
              0 "analyze X" _ ltac:(vm_compute; reflexivity))
    as [Hroot (subtasks & Htasks & _)].
  split; [exact Hroot|]. exists subtasks. exact Htasks.
Defined.

(** X11 at the sample plan. *)
Lemma complete_plan_kept_witness :
  sample_fromstring sample_chain_text sample_chain_plan
    (clean_xml_text sample_chain_text) = Ok sample_chain_plan /\
  exists w' subtasks,
    _parse_task_tree_xml nat sample_uuid4
      (sample_fromstring sample_chain_text sample_chain_plan)
      0 sample_chain_text "analyze X"
    = (w', Ok (mkTaskTree 0
                 (new_Task "root" "投资分析" "analyze X" "coordinator" [] []
                  :: subtasks))) /\
    List.length subtasks = 3.
Proof.
  assert (Hparse : sample_fromstring sample_chain_text sample_chain_plan
                     (clean_xml_text sample_chain_text) = Ok sample_chain_plan)
    by (vm_compute; reflexivity).
  split; [exact Hparse|].
  destruct (complete_plan_kept nat sample_uuid4
              (sample_fromstring sample_chain_text sample_chain_plan)
              0 sample_chain_text "analyze X" sample_chain_plan
              (mkElement "tasks" None
                 [ task_element "A" None (sample_subtask "a" "data_collector");
                   task_element "B" (Some "A")
                     (sample_subtask "b" "technical_analyst");
                   task_element "C" (Some "B")
                     (sample_subtask "c" "report_generator") ])
              Hparse eq_refl)
    as (w' & subtasks & Htree & Hall).
  - intros task_elem field Htask Hfield.
    simpl in Htask, Hfield.
    destruct Htask as [<-|[<-|[<-|[]]]];
      destruct Hfield as [<-|[<-|[<-|[<-|[]]]]]; discriminate.
  - exists w', subtasks. split; [exact Htree|].
    apply Forall2_length in Hall. rewrite <- Hall. reflexivity.
Defined.

(** X12 at an answer that is XML and no plan. *)
Lemma plan_without_tasks_element_witness :
  sample_fromstring sample_refusal_text sample_refusal
    (clean_xml_text sample_refusal_text) = Ok sample_refusal /\
  _parse_task_tree_xml nat sample_uuid4
    (sample_fromstring sample_refusal_text sample_refusal)
    0 sample_refusal_text "analyze X"
  = (0, Ok (mkTaskTree 0
              [new_Task "root" "投资分析" "analyze X" "coordinator" [] []])).
Proof.
  assert (Hparse : sample_fromstring sample_refusal_text sample_refusal
                     (clean_xml_text sample_refusal_text) = Ok sample_refusal)
    by (vm_compute; reflexivity).
  split; [exact Hparse|].
  exact (proj1 (plan_without_tasks_element nat (sample_agent (Ok "done"))
                  sample_uuid4
                  (sample_fromstring sample_refusal_text sample_refusal)
                  0 sample_refusal_text "analyze X" sample_refusal
                  Hparse eq_refl)).
Defined.

(** X15 at the default tree once the data-collection task has run. *)
Lemma report_covers_completed_tasks_witness :
  sample_reachable
    (update_task_status (_create_default_task_tree "analyze X")
       "data_collection" "completed" (Some "done")) /\
  counted_tasks
    (update_task_status (_create_default_task_tree "analyze X")
       "data_collection" "completed" (Some "done"))
  = report_tasks
      (update_task_status (_create_default_task_tree "analyze X")
         "data_collection" "completed" (Some "done")) /\
  ids (report_tasks
         (update_task_status (_create_default_task_tree "analyze X")
            "data_collection" "completed" (Some "done")))
  = ["data_collection"].
Proof.
  split; [exact sample_data_task_reachable|]. split; [|reflexivity].
  exact (proj1 (report_covers_completed_tasks nat _ _ _ _ _
                  sample_data_task_reachable)).
Defined.

(** Of two closing markers the first one ends the fragment, and the text
    around the plan is dropped. *)
Example first_closing_marker_cut :
  clean_xml_text "Plan: <task_tree>a</task_tree>b</task_tree>c"
  = "<task_tree>a</task_tree>".
Proof. vm_compute. reflexivity. Qed.

(** A text part whose text is [None] makes the join raise, as Python words
    it. *)
Example structured_request_raises :
  request_of None
    [ ContentList
        [ PartDict (Some (VStr "text")) (Some (VStr "analyze"));
          PartDict (Some (VStr "text")) (Some VNone) ] ]
  = Raise (Exception
             "sequence item 1: expected str instance, NoneType found").
Proof. reflexivity. Qed.
